(** * Metamorph: the ingestion, normalisation, deduplication and enrichment
    pipeline, embedded from [core/fetch_data.py], [core/services.py],
    [core/tasks.py], [core/views.py] and [core/models.py]. *)

From Stdlib Require Import ZArith QArith Lia Floats.SpecFloat.
From stdpp Require Import base option list strings pretty gmap.

Local Open Scope string_scope.
Local Open Scope Z_scope.
Local Open Scope list_scope.

(** ** Python and JSON values *)

(** Python floats are IEEE-754 binary64 numbers. *)
Definition float := spec_float.
Definition prec : Z := 53.
Definition emax : Z := 1024.

Definition float_mul (x y : float) : float := SFmul prec emax x y.
Definition float_of_Z (z : Z) : float := binary_normalize prec emax z 0 false.
Arguments float_mul : simpl never.
Arguments float_of_Z : simpl never.

Definition float_eqb (x y : float) : bool :=
  match x, y with
  | S754_zero s, S754_zero t => Bool.eqb s t
  | S754_infinity s, S754_infinity t => Bool.eqb s t
  | S754_nan, S754_nan => true
  | S754_finite s m e, S754_finite t n f =>
      Bool.eqb s t && Pos.eqb m n && Z.eqb e f
  | _, _ => false
  end.

(** The values that [response.json()] can produce and that a [JSONField]
    stores.  A dict keeps its items in insertion order. *)
#[warnings="-register-all"]
Inductive value : Type :=
  | VNone
  | VBool (b : bool)
  | VInt (z : Z)
  | VFloat (f : float)
  | VStr (s : string)
  | VList (l : list value)
  | VDict (d : list (string * value)).

Definition dict := list (string * value).

Fixpoint value_eqb (a b : value) {struct a} : bool :=
  match a, b with
  | VNone, VNone => true
  | VBool x, VBool y => Bool.eqb x y
  | VInt x, VInt y => Z.eqb x y
  | VFloat x, VFloat y => float_eqb x y
  | VStr x, VStr y => String.eqb x y
  | VList x, VList y =>
      (fix go (l1 l2 : list value) {struct l1} : bool :=
         match l1, l2 with
         | [], [] => true
         | u :: l1', v :: l2' => value_eqb u v && go l1' l2'
         | _, _ => false
         end) x y
  | VDict x, VDict y =>
      (fix go (l1 l2 : list (string * value)) {struct l1} : bool :=
         match l1, l2 with
         | [], [] => true
         | (j, u) :: l1', (k, v) :: l2' =>
             String.eqb j k && value_eqb u v && go l1' l2'
         | _, _ => false
         end) x y
  | _, _ => false
  end.

(** [d.get(k)] on the items of a dict. *)
Fixpoint dict_get (k : string) (d : dict) : option value :=
  match d with
  | [] => None
  | (j, v) :: d' => if String.eqb j k then Some v else dict_get k d'
  end.

(** Python truth value testing, as used by [if x], [not x] and [x or y]. *)
Definition float_is_zero (f : float) : bool :=
  match f with S754_zero _ => true | _ => false end.

Definition truthy (v : value) : bool :=
  match v with
  | VNone => false
  | VBool b => b
  | VInt z => negb (Z.eqb z 0)
  | VFloat f => negb (float_is_zero f)
  | VStr s => negb (String.eqb s "")
  | VList l => match l with [] => false | _ => true end
  | VDict d => match d with [] => false | _ => true end
  end.

(** ** Exceptions and results *)

(** The subclasses of [requests.exceptions.RequestException] that a fetch can
    meet; [JSONDecodeError] is the one [response.json()] raises. *)
Inductive request_error : Type :=
  | Timeout
  | ConnectionError
  | TooManyRedirects
  | HTTPError
  | JSONDecodeError.

Inductive exn : Type :=
  | KeyError (k : string)
  | TypeError
  | AttributeError
  | ValueError
  | OverflowError
  | IntegrityError
  | MultipleObjectsReturned
  | RequestException (r : request_error).

Inductive result (A : Type) : Type :=
  | Ok (a : A)
  | Raised (e : exn).
Arguments Ok {A} a.
Arguments Raised {A} e.

(** What a view answers: the payload with status 200, or the generic error
    with status 500 when the query raised. *)
Inductive api_response (A : Type) : Type :=
  | HTTP_200_OK (payload : A)
  | HTTP_500_INTERNAL_SERVER_ERROR (error : string).
Arguments HTTP_200_OK {A} payload.
Arguments HTTP_500_INTERNAL_SERVER_ERROR {A} error.

(** A response of a view that can also refuse its argument.  Authentication
    is done before a view runs and is not part of it. *)
Inductive view_response (A : Type) : Type :=
  | Status_200 (payload : A)
  | Status_400 (error : string)
  | Status_500 (error : string).
Arguments Status_200 {A} payload.
Arguments Status_400 {A} error.
Arguments Status_500 {A} error.

Definition is_ok {A} (r : result A) : bool :=
  match r with Ok _ => true | Raised _ => false end.

(** [v[k]] for a string key [k]: only a dict can be subscripted by a string. *)
Definition subscript (v : value) (k : string) : result value :=
  match v with
  | VDict d =>
      match dict_get k d with
      | Some x => Ok x
      | None => Raised (KeyError k)
      end
  | _ => Raised TypeError
  end.

(** [v.get(k, dflt)]: only a dict has the method. *)
Definition get_method (v : value) (k : string) (dflt : value) : result value :=
  match v with
  | VDict d => Ok (default dflt (dict_get k d))
  | _ => Raised AttributeError
  end.

Fixpoint chars (s : string) : list value :=
  match s with
  | EmptyString => []
  | String c s' => VStr (String c EmptyString) :: chars s'
  end.

(** The items a [for item in v] loop visits. *)
Definition py_iter (v : value) : result (list value) :=
  match v with
  | VList l => Ok l
  | VDict d => Ok (map (fun kv => VStr (fst kv)) d)
  | VStr s => Ok (chars s)
  | _ => Raised TypeError
  end.

(** ** The data model of [core/models.py] *)

(** A [datetime] is carried as its ISO-8601 text, so [isoformat()] is the
    identity.  A UUID is carried as the index of the [uuid4()] draw that made
    it: two draws never give the same identifier. *)
Definition datetime := string.
Definition uuid := nat.

(** [UnifiedEntity]; the same record is the keyword dictionary handed to
    [UnifiedEntity.objects.create].  The bookkeeping columns Django
    fills in on save are not read by the pipeline and are left out. *)
Record UnifiedEntity : Type := {
  entity_id : uuid;
  entity_type : string;
  timestamp : datetime;
  data : dict;
  metadata : dict
}.

(** Fixed-point decimals with two places are counted in hundredths. *)
Definition decimal := Z.

Record UserProfile : Type := {
  user_pk : nat;
  user_external_id : string;
  user_name : string;
  user_email : string;
  user_phone : option string;
  user_country : string;
  user_registered_date : datetime
}.

Record Category : Type := {
  category_pk : nat;
  category_name : string
}.

Record Product : Type := {
  product_pk : nat;
  product_external_id : Z;
  product_title : string;
  product_price : decimal;
  product_category : option nat;
  product_description : string;
  product_image_url : string
}.

Record Transaction : Type := {
  transaction_pk : nat;
  transaction_external_id : string;
  transaction_user : nat;
  transaction_product : nat;
  transaction_amount : decimal;
  transaction_timestamp : datetime
}.

Record APIDataCache : Type := {
  endpoint : string;
  response_data : value;
  fetched_at : datetime
}.

(** The database tables together with the counters of the three external
    effects: identifiers drawn, clock readings and requests sent. *)
Record world : Type := {
  uuids_drawn : nat;
  clock_reads : nat;
  requests_sent : nat;
  unified : list UnifiedEntity;
  api_cache : list APIDataCache;
  user_profiles : list UserProfile;
  categories : list Category;
  products : list Product;
  transactions : list Transaction
}.

Definition set_unified (rows : list UnifiedEntity) (w : world) : world :=
  {| uuids_drawn := uuids_drawn w; clock_reads := clock_reads w;
     requests_sent := requests_sent w; unified := rows;
     api_cache := api_cache w; user_profiles := user_profiles w;
     categories := categories w; products := products w;
     transactions := transactions w |}.

Definition set_api_cache (rows : list APIDataCache) (w : world) : world :=
  {| uuids_drawn := uuids_drawn w; clock_reads := clock_reads w;
     requests_sent := requests_sent w; unified := unified w;
     api_cache := rows; user_profiles := user_profiles w;
     categories := categories w; products := products w;
     transactions := transactions w |}.

(** ** Computations: state that survives a raised exception *)

Definition M (A : Type) : Type := world -> world * result A.

Definition ret {A} (a : A) : M A := fun w => (w, Ok a).
Definition raise {A} (e : exn) : M A := fun w => (w, Raised e).
Definition bind {A B} (m : M A) (k : A -> M B) : M B :=
  fun w =>
    match m w with
    | (w', Ok a) => k a w'
    | (w', Raised e) => (w', Raised e)
    end.
Definition lift {A} (r : result A) : M A := fun w => (w, r).

Declare Scope py_scope.
Delimit Scope py_scope with py.
Notation "x <- m ;; k" := (bind m (fun x => k))
  (at level 100, m at next level, right associativity) : py_scope.
Notation "m ;;; k" := (bind m (fun _ => k))
  (at level 100, right associativity) : py_scope.
Local Open Scope py_scope.

Definition draw (w : world) : world :=
  {| uuids_drawn := S (uuids_drawn w); clock_reads := clock_reads w;
     requests_sent := requests_sent w; unified := unified w;
     api_cache := api_cache w; user_profiles := user_profiles w;
     categories := categories w; products := products w;
     transactions := transactions w |}.

(** [uuid.uuid4()]. *)
Definition uuid4 : M uuid := fun w => (draw w, Ok (uuids_drawn w)).

Definition tick (w : world) : world :=
  {| uuids_drawn := uuids_drawn w; clock_reads := S (clock_reads w);
     requests_sent := requests_sent w; unified := unified w;
     api_cache := api_cache w; user_profiles := user_profiles w;
     categories := categories w; products := products w;
     transactions := transactions w |}.

Definition sent (w : world) : world :=
  {| uuids_drawn := uuids_drawn w; clock_reads := clock_reads w;
     requests_sent := S (requests_sent w); unified := unified w;
     api_cache := api_cache w; user_profiles := user_profiles w;
     categories := categories w; products := products w;
     transactions := transactions w |}.

(** What [requests.get(url, timeout=10)] meets: a transport failure, or a
    response with its status code and its body, [None] when the body is not
    JSON. *)
Inductive http_reply : Type :=
  | Failed (r : request_error)
  | Response (status_code : Z) (body : option value).

(** [try: body except <caught>: handler]. *)
Definition try_except {A} (body : M A) (caught : exn -> bool) (handler : M A)
  : M A :=
  fun w =>
    match body w with
    | (w', Ok a) => (w', Ok a)
    | (w', Raised e) => if caught e then handler w' else (w', Raised e)
    end.

(** [str(d)] of a [Decimal] quantised to two places. *)
Definition two_digits (n : Z) : string :=
  if n <? 10 then "0" +:+ pretty n else pretty n.

Definition str_decimal (d : decimal) : string :=
  (if d <? 0 then "-" else "") +:+
  pretty (Z.abs d `div` 100) +:+ "." +:+ two_digits (Z.abs d `mod` 100).

(** ** SQL aggregates of [django.db.models] *)

(** [Sum] and [Avg] over no rows are NULL, [Count] is 0. *)
Definition sql_sum (l : list decimal) : option decimal :=
  match l with
  | [] => None
  | _ => Some (foldr Z.add 0 l)
  end.

Definition sql_avg (l : list decimal) : option Q :=
  match l with
  | [] => None
  | _ => Some (inject_Z (foldr Z.add 0%Z l) / inject_Z (Z.of_nat (length l)))%Q
  end.

(** [x or 0] for an optional number. *)
Definition or_zero (x : option Q) : Q :=
  match x with
  | Some q => if Qeq_bool q 0 then 0%Q else q
  | None => 0%Q
  end.

(** ** Sample inputs *)

Definition empty_world : world :=
  {| uuids_drawn := 0%nat; clock_reads := 0%nat; requests_sent := 0%nat;
     unified := []; api_cache := []; user_profiles := []; categories := [];
     products := []; transactions := [] |}.

(** [format] on the values the samples put in an f-string: strings and
    integers. *)
Definition format_simple (v : value) : string :=
  match v with
  | VStr s => s
  | VInt z => pretty z
  | _ => ""
  end.

(** No sample carries a numeric string, so [float] is only run on numbers. *)
Definition float_of_no_str (s : string) : option float := None.

Definition frozen_clock (n : nat) : datetime := "2025-03-10T09:28:00+00:00".

(** Scenario A: one product. *)
Definition scenario_A : value :=
  VList [VDict [("id", VInt 1); ("title", VStr "Shirt");
                ("price", VFloat (SFdiv prec emax (float_of_Z 999)
                                                  (float_of_Z 100)));
                ("category", VStr "clothing"); ("description", VStr "");
                ("image", VStr "http://x/y.png")]].

(** Scenario B: one order. *)
Definition scenario_B_item : value :=
  VDict [("id", VInt 5); ("status", VStr "placed"); ("eta", VStr "...");
         ("user_name", VStr "A"); ("user_phone", VStr "1");
         ("parcel_id", VStr "p1")].

Definition scenario_B : value := VList [scenario_B_item].

(** A product without a title, behind a complete one. *)
Definition untitled_product : value :=
  VDict [("id", VInt 2); ("price", VInt 3)].

Definition one_bad_product : value :=
  match scenario_A with
  | VList l => VList (l ++ [untitled_product])
  | v => v
  end.

(** Networks: nothing answers; every request is answered 300 with a JSON
    body; the catalogue answers with an item that has no title; the
    catalogue and the order feed answer, the user directory times out. *)
Definition net_down (n : nat) (url : string) : http_reply := Failed Timeout.


Definition net_untitled (n : nat) (url : string) : http_reply :=
  Response 200 (Some (VList [untitled_product])).

Definition net_mixed (n : nat) (url : string) : http_reply :=
  if String.eqb url "https://fakestoreapi.com/products"
  then Response 200 (Some scenario_A)
  else if String.eqb url "https://randomuser.me/api/?results=20"
  then Failed Timeout
  else Response 200 (Some scenario_B).

(** A record whose external identity is the integer 0. *)
Definition zero_id_record : UnifiedEntity :=
  {| entity_id := 7%nat; entity_type := "product";
     timestamp := "2025-03-10T09:28:00+00:00";
     data := [("external_id", VInt 0); ("title", VStr "Socks")];
     metadata := [] |}.

(** The record the normaliser makes of Scenario A in an empty world. *)
Definition shirt_record : UnifiedEntity :=
  {| entity_id := 0%nat; entity_type := "product";
     timestamp := "2025-03-10T09:28:00+00:00";
     data := [("external_id", VInt 1); ("title", VStr "Shirt");
              ("price", VFloat (S754_finite false 5623870034678907 (-49)));
              ("category", VStr "clothing"); ("description", VStr "");
              ("image_url", VStr "http://x/y.png")];
     metadata := [("source", VStr "FakeStoreAPI");
                  ("processed_at", VStr "2025-03-10T09:28:00+00:00")] |}.

(** A user who bought nothing. *)
Definition ada : UserProfile :=
  {| user_pk := 1%nat; user_external_id := "6f1c";
     user_name := "Ada"; user_email := "ada@example.org";
     user_phone := None; user_country := "UK";
     user_registered_date := "2024-01-01T00:00:00+00:00" |}.

Definition lonely_world : world :=
  {| uuids_drawn := 0%nat; clock_reads := 0%nat; requests_sent := 0%nat;
     unified := []; api_cache := []; user_profiles := [ada];
     categories := []; products := []; transactions := [] |}.

(** Scenario D: a user with two transactions of 10 and 20, next to an
    enriched record left by an earlier run. *)
Definition shirt : Product :=
  {| product_pk := 1%nat; product_external_id := 1; product_title := "Shirt";
     product_price := 999; product_category := Some 1%nat;
     product_description := ""; product_image_url := "http://x/y.png" |}.

Definition order (pk : nat) (ext : string) (amount : decimal) : Transaction :=
  {| transaction_pk := pk; transaction_external_id := ext;
     transaction_user := 1%nat; transaction_product := 1%nat;
     transaction_amount := amount;
     transaction_timestamp := "2025-03-01T12:00:00+00:00" |}.

Definition stale_enriched : UnifiedEntity :=
  {| entity_id := 0%nat; entity_type := "transaction";
     timestamp := "2025-02-01T12:00:00+00:00";
     data := [("transaction_id", VStr "old")];
     metadata := [("source", VStr "Enriched Data")] |}.

Definition shop_world : world :=
  {| uuids_drawn := 2%nat; clock_reads := 0%nat; requests_sent := 0%nat;
     unified := [stale_enriched; {| entity_id := 1%nat; entity_type := "product";
                                    timestamp := "2025-02-01T12:00:00+00:00";
                                    data := [("external_id", VInt 1)];
                                    metadata := [] |}];
     api_cache := []; user_profiles := [ada];
     categories := [{| category_pk := 1%nat; category_name := "clothing" |}];
     products := [shirt];
     transactions := [order 1%nat "t-1" 1000; order 2%nat "t-2" 2000] |}.

(** A network that answers every request with an empty JSON object. *)
Definition net_empty_object (n : nat) (url : string) : http_reply :=
  Response 200 (Some (VDict [])).

(** An order whose id is the id of the shirt. *)
Definition order_one : UnifiedEntity :=
  {| entity_id := 1%nat; entity_type := "transaction";
     timestamp := "2025-03-10T09:30:00+00:00";
     data := [("external_id", VInt 1); ("status", VStr "placed")];
     metadata := [("source", VStr "MockarooAPI")] |}.

(** A record of a type the data view does not list. *)
Definition parcel_record : UnifiedEntity :=
  {| entity_id := 2%nat; entity_type := "parcel";
     timestamp := "2025-03-10T09:31:00+00:00";
     data := [("external_id", VStr "p1")];
     metadata := [] |}.

(** The shop with its identifier counter behind the identifiers in use. *)
Definition clash_world : world :=
  {| uuids_drawn := 1%nat; clock_reads := 0%nat; requests_sent := 0%nat;
     unified := unified shop_world; api_cache := [];
     user_profiles := user_profiles shop_world;
     categories := categories shop_world; products := products shop_world;
     transactions := transactions shop_world |}.



Section Pipeline.

(** The Python built-ins and the outside world the code relies on:
    [format(v, "")] of a value inside an f-string, [float(s)] of a string
    ([None] when it raises [ValueError]), the successive readings of
    [django.utils.timezone.now()] and the replies of the network, by request
    number and URL. *)
Variable py_format : value -> string.
Variable float_of_str : string -> option float.
Variable clock : nat -> datetime.
Variable http_get : nat -> string -> http_reply.

(** [float(v)]. *)
Definition py_float (v : value) : result float :=
  match v with
  | VInt z =>
      match float_of_Z z with
      | S754_infinity _ => Raised OverflowError
      | f => Ok f
      end
  | VFloat f => Ok f
  | VBool b => Ok (float_of_Z (if b then 1 else 0))
  | VStr s =>
      match float_of_str s with
      | Some f => Ok f
      | None => Raised ValueError
      end
  | _ => Raised TypeError
  end.

(** [now()], and [now().isoformat()] alike. *)
Definition now : M datetime := fun w => (tick w, Ok (clock (clock_reads w))).

(** *** [core/services.py] *)

(** [for item in items: transformed_data.append(body(item))]. *)
Fixpoint for_append (body : value -> M UnifiedEntity) (items : list value)
    (transformed_data : list UnifiedEntity) : M (list UnifiedEntity) :=
  match items with
  | [] => ret transformed_data
  | item :: rest =>
      r <- body item ;;
      for_append body rest (transformed_data ++ [r])
  end.

Definition product_entry (item : value) : M UnifiedEntity :=
  eid <- uuid4 ;;
  ts <- now ;;
  external_id <- lift (subscript item "id") ;;
  title <- lift (subscript item "title") ;;
  price <- lift (subscript item "price") ;;
  category <- lift (subscript item "category") ;;
  description <- lift (subscript item "description") ;;
  image <- lift (subscript item "image") ;;
  processed_at <- now ;;
  ret {| entity_id := eid;
         entity_type := "product";
         timestamp := ts;
         data := [("external_id", external_id); ("title", title);
                  ("price", price); ("category", category);
                  ("description", description); ("image_url", image)];
         metadata := [("source", VStr "FakeStoreAPI");
                      ("processed_at", VStr processed_at)] |}.

Definition user_entry (item : value) : M UnifiedEntity :=
  eid <- uuid4 ;;
  ts <- now ;;
  login <- lift (subscript item "login") ;;
  external_id <- lift (subscript login "uuid") ;;
  name1 <- lift (subscript item "name") ;;
  first <- lift (subscript name1 "first") ;;
  name2 <- lift (subscript item "name") ;;
  last <- lift (subscript name2 "last") ;;
  email <- lift (subscript item "email") ;;
  phone <- lift (get_method item "phone" VNone) ;;
  location <- lift (subscript item "location") ;;
  country <- lift (subscript location "country") ;;
  registered <- lift (subscript item "registered") ;;
  registered_date <- lift (subscript registered "date") ;;
  processed_at <- now ;;
  ret {| entity_id := eid;
         entity_type := "user";
         timestamp := ts;
         data := [("external_id", external_id);
                  ("name", VStr (py_format first +:+ " " +:+ py_format last));
                  ("email", email); ("phone", phone);
                  ("country", country);
                  ("registered_date", registered_date)];
         metadata := [("source", VStr "RandomUserAPI");
                      ("processed_at", VStr processed_at)] |}.

Definition transaction_entry (item : value) : M UnifiedEntity :=
  id_or_1 <- lift (get_method item "id" (VInt 1)) ;;
  id_float <- lift (py_float id_or_1) ;;
  let simulated_amount := float_mul id_float (float_of_Z 10) in
  eid <- uuid4 ;;
  ts <- now ;;
  external_id <- lift (subscript item "id") ;;
  status <- lift (subscript item "status") ;;
  eta <- lift (subscript item "eta") ;;
  user_name <- lift (subscript item "user_name") ;;
  user_phone <- lift (subscript item "user_phone") ;;
  parcel_id <- lift (get_method item "parcel_id" VNone) ;;
  processed_at <- now ;;
  ret {| entity_id := eid;
         entity_type := "transaction";
         timestamp := ts;
         data := [("external_id", external_id); ("status", status);
                  ("eta", eta); ("user_name", user_name);
                  ("user_phone", user_phone);
                  ("amount", VFloat simulated_amount);
                  ("parcel_id", parcel_id)];
         metadata := [("source", VStr "MockarooAPI");
                      ("processed_at", VStr processed_at)] |}.

Definition transform_data (api_name : string) (raw_data : value)
  : M (list UnifiedEntity) :=
  if String.eqb api_name "products" then
    items <- lift (py_iter raw_data) ;;
    for_append product_entry items []
  else if String.eqb api_name "users" then
    results <- lift (get_method raw_data "results" (VList [])) ;;
    items <- lift (py_iter results) ;;
    for_append user_entry items []
  else if String.eqb api_name "transactions" then
    items <- lift (py_iter raw_data) ;;
    for_append transaction_entry items []
  else ret [].

(** [UnifiedEntity.objects.filter(data__external_id=ext_id).exists()]: the
    stored JSON value under the key is compared with the looked-up one. *)
Definition external_id_exists (ext_id : value) (rows : list UnifiedEntity)
  : bool :=
  existsb (fun row =>
             match dict_get "external_id" (data row) with
             | Some v => value_eqb v ext_id
             | None => false
             end) rows.

(** [UnifiedEntity.objects.create]: [entity_id] is declared [unique]. *)
Definition UnifiedEntity_create (row : UnifiedEntity) : M unit := fun w =>
  if existsb (fun r => Nat.eqb (entity_id r) (entity_id row)) (unified w)
  then (w, Raised IntegrityError)
  else (set_unified (unified w ++ [row]) w, Ok tt).

Definition store_item (item : UnifiedEntity) : M unit := fun w =>
  let ext_id := default VNone (dict_get "external_id" (data item)) in
  if truthy ext_id && negb (external_id_exists ext_id (unified w))
  then UnifiedEntity_create item w
  else (w, Ok tt).

Fixpoint store_transformed_data (transformed_data : list UnifiedEntity)
  : M unit :=
  match transformed_data with
  | [] => ret tt
  | item :: rest => store_item item ;;; store_transformed_data rest
  end.

(** [UnifiedEntity.objects.filter(entity_type="transaction").delete()]. *)
Definition delete_transaction_entities : M unit := fun w =>
  (set_unified (filter (fun r => entity_type r <> "transaction") (unified w)) w,
   Ok tt).

(** [Transaction.objects.select_related('user', 'product',
    'product__category').all()]: inner joins on the two mandatory foreign
    keys, a left outer join on the nullable category. *)
Definition category_of (w : world) (p : Product) : option Category :=
  match product_category p with
  | Some k => head (filter (fun c => category_pk c = k) (categories w))
  | None => None
  end.

Definition select_related (w : world)
  : list (Transaction * UserProfile * Product * option Category) :=
  flat_map (fun t =>
    flat_map (fun u =>
      map (fun p => (t, u, p, category_of w p))
          (filter (fun p => product_pk p = transaction_product t) (products w)))
      (filter (fun u => user_pk u = transaction_user t) (user_profiles w)))
    (transactions w).

Definition opt_str (o : option string) : value :=
  match o with Some s => VStr s | None => VNone end.

Definition enriched_data
    (row : Transaction * UserProfile * Product * option Category) : dict :=
  let '(trans, user, product, category) := row in
  [("transaction_id", VStr (transaction_external_id trans));
   ("amount", VStr (str_decimal (transaction_amount trans)));
   ("timestamp", VStr (transaction_timestamp trans));
   ("user", VDict
      [("external_id", VStr (user_external_id user));
       ("name", VStr (user_name user));
       ("email", VStr (user_email user));
       ("phone", opt_str (user_phone user));
       ("country", VStr (user_country user));
       ("registered_date", VStr (user_registered_date user))]);
   ("product", VDict
      [("external_id", VInt (product_external_id product));
       ("title", VStr (product_title product));
       ("price", VStr (str_decimal (product_price product)));
       ("description", VStr (product_description product));
       ("category", opt_str (category_name <$> category));
       ("image_url", VStr (product_image_url product))])].

Fixpoint enrich_loop
    (rows : list (Transaction * UserProfile * Product * option Category))
    (enriched_count : nat) : M nat :=
  match rows with
  | [] => ret enriched_count
  | row :: rest =>
      let payload := enriched_data row in
      eid <- uuid4 ;;
      processed_at <- now ;;
      UnifiedEntity_create
        {| entity_id := eid;
           entity_type := "transaction";
           timestamp := transaction_timestamp (fst (fst (fst row)));
           data := payload;
           metadata := [("source", VStr "Enriched Data");
                        ("processed_at", VStr processed_at)] |} ;;;
      enrich_loop rest (S enriched_count)
  end.

Definition enrich_transactions : M nat :=
  delete_transaction_entities ;;;
  (fun w => enrich_loop (select_related w) 0 w).

(** *** [core/fetch_data.py] *)

Definition API_ENDPOINTS : gmap string string :=
  <["products" := "https://fakestoreapi.com/products"]>
  (<["users" := "https://randomuser.me/api/?results=20"]>
  (<["transactions" := "https://my.api.mockaroo.com/orders.json?key=e49e6840"]>
   ∅)).

Definition requests_get (url : string) : M http_reply := fun w =>
  (sent w, Ok (http_get (requests_sent w) url)).

(** [requests.get], [response.raise_for_status()] and [response.json()]. *)
Definition get_response (url : string) : M (Z * option value) :=
  reply <- requests_get url ;;
  match reply with
  | Failed r => raise (RequestException r)
  | Response status_code body => ret (status_code, body)
  end.

Definition raise_for_status (response : Z * option value) : M unit :=
  if (400 <=? fst response) && (fst response <? 600)
  then raise (RequestException HTTPError)
  else ret tt.

Definition response_json (response : Z * option value) : M value :=
  match snd response with
  | Some v => ret v
  | None => raise (RequestException JSONDecodeError)
  end.

(** [APIDataCache.objects.update_or_create(endpoint=url, defaults=...)]. *)
Definition update_or_create (url : string) (payload : value)
    (fetched : datetime) : M unit := fun w =>
  match filter (fun r => endpoint r = url) (api_cache w) with
  | [] =>
      (set_api_cache
         (api_cache w ++
          [{| endpoint := url; response_data := payload;
              fetched_at := fetched |}]) w, Ok tt)
  | [_] =>
      (set_api_cache
         (map (fun r =>
                 if decide (endpoint r = url)
                 then {| endpoint := url; response_data := payload;
                         fetched_at := fetched |}
                 else r) (api_cache w)) w, Ok tt)
  | _ => (w, Raised MultipleObjectsReturned)
  end.

Definition is_RequestException (e : exn) : bool :=
  match e with RequestException _ => true | _ => false end.

Definition fetch_data_from_api (api_name : string) : M value :=
  match API_ENDPOINTS !! api_name with
  | None => ret (VList [])
  | Some url =>
      if String.eqb url "" then ret (VList []) else
      try_except
        (response <- get_response url ;;
         raise_for_status response ;;;
         payload <- response_json response ;;
         fetched <- now ;;
         update_or_create url payload fetched ;;;
         ret (if truthy payload then payload else VList []))
        is_RequestException
        (ret (VList []))
  end.

(** *** [core/tasks.py] *)

Definition fetch_and_store_data (api_name : string) : M string :=
  raw_data <- fetch_data_from_api api_name ;;
  if negb (truthy raw_data)
  then ret ("Failed to fetch data from " +:+ api_name)
  else
    transformed <- transform_data api_name raw_data ;;
    store_transformed_data transformed ;;;
    ret ("Processed data from " +:+ api_name).

Fixpoint fetch_all_loop (api_names : list string)
    (results : gmap string string) : M (gmap string string) :=
  match api_names with
  | [] => ret results
  | api_name :: rest =>
      r <- fetch_and_store_data api_name ;;
      fetch_all_loop rest (<[api_name := r]> results)
  end.

Definition fetch_all_data : M (gmap string string) :=
  fetch_all_loop ["products"; "users"; "transactions"] ∅.

(** *** [core/views.py]: the insight queries *)

Record user_insight : Type := {
  ui_external_id : string;
  ui_name : string;
  ui_email : string;
  total_spent : option decimal
}.

(** [UserProfile.objects.all().annotate(total_spent=
    Sum('transactions__amount')).values(...)]. *)
Definition user_data (w : world) : list user_insight :=
  map (fun u =>
         {| ui_external_id := user_external_id u;
            ui_name := user_name u;
            ui_email := user_email u;
            total_spent :=
              sql_sum (map transaction_amount
                         (filter (fun t => transaction_user t = user_pk u)
                                 (transactions w))) |})
      (user_profiles w).

Definition UserInsightsView_get (w : world)
  : api_response (list user_insight) :=
  HTTP_200_OK (user_data w).

(** [Category.objects.annotate(transaction_count=
    Count('products__transactions')).values('name', 'transaction_count')]. *)
Definition category_data (w : world) : list (string * nat) :=
  map (fun c =>
         (category_name c,
          length
            (flat_map (fun p =>
                         filter (fun t => transaction_product t = product_pk p)
                                (transactions w))
                      (filter (fun p => product_category p = Some (category_pk c))
                              (products w)))))
      (categories w).

(** [Transaction.objects.aggregate(average_value=Avg('amount'))]. *)
Definition avg_transaction (w : world) : option Q :=
  sql_avg (map transaction_amount (transactions w)).

Record product_insight : Type := {
  product_categories : list (string * nat);
  average_transaction_value : Q
}.

Definition ProductInsightsView_get (w : world)
  : api_response product_insight :=
  HTTP_200_OK {| product_categories := category_data w;
                 average_transaction_value := or_zero (avg_transaction w) |}.

(** *** Invariants of the tables *)

(** The external identities carried by the stored payloads. *)
Definition external_ids (rows : list UnifiedEntity) : list value :=
  omap (fun r => dict_get "external_id" (data r)) rows.

(** No two stored records share an external identity. *)
Definition ext_unique (rows : list UnifiedEntity) : Prop :=
  NoDup (external_ids rows).

(** Every stored [entity_id] was drawn earlier. *)
Definition ids_fresh (w : world) : Prop :=
  Forall (fun r => (entity_id r < uuids_drawn w)%nat) (unified w).

(** *** The per-source mapping table of the normaliser *)

(** The sequence a source's loop runs over, and its loop body. *)
Definition payload_items (api_name : string) (raw_data : value)
  : result (list value) :=
  if String.eqb api_name "users" then
    match get_method raw_data "results" (VList []) with
    | Ok results => py_iter results
    | Raised e => Raised e
    end
  else py_iter raw_data.

Definition entry_for (api_name : string) : value -> M UnifiedEntity :=
  if String.eqb api_name "products" then product_entry
  else if String.eqb api_name "users" then user_entry
  else transaction_entry.

Definition recognized (api_name : string) : Prop :=
  api_name = "products" \/ api_name = "users" \/ api_name = "transactions".

(** The required fields of an item, as paths of keys, in the order in which
    the loop body reads them. *)
Definition required_paths (api_name : string) : list (list string) :=
  if String.eqb api_name "products" then
    [["id"]; ["title"]; ["price"]; ["category"]; ["description"]; ["image"]]
  else if String.eqb api_name "users" then
    [["login"; "uuid"]; ["name"; "first"]; ["name"; "last"]; ["email"];
     ["location"; "country"]; ["registered"; "date"]]
  else if String.eqb api_name "transactions" then
    [["id"]; ["status"]; ["eta"]; ["user_name"]; ["user_phone"]]
  else [].

(** What reading a path in a value comes to: [None] when the field is
    there, the error of the failing subscript otherwise. *)
Fixpoint path_error (v : value) (path : list string) : option exn :=
  match path with
  | [] => None
  | k :: rest =>
      match v with
      | VDict d =>
          match dict_get k d with
          | Some x => path_error x rest
          | None => Some (KeyError k)
          end
      | _ => Some TypeError
      end
  end.

Definition has_path (v : value) (path : list string) : bool :=
  match path_error v path with None => true | Some _ => false end.

Fixpoint first_error (item : value) (paths : list (list string))
  : option exn :=
  match paths with
  | [] => None
  | p :: rest =>
      match path_error item p with
      | Some e => Some e
      | None => first_error item rest
      end
  end.

(** An item lacks a required field of its source. *)
Definition missing_field (api_name : string) (item : value) : Prop :=
  exists path, path ∈ required_paths api_name /\ has_path item path = false.

(** [float(item.get("id", 1))] goes through. *)
Definition amount_computable (item : value) : Prop :=
  exists x f, get_method item "id" (VInt 1) = Ok x /\ py_float x = Ok f.

(** An item whose required fields are all there (and, for a transaction,
    whose amount can be computed). *)
Definition well_formed_item (api_name : string) (item : value) : Prop :=
  first_error item (required_paths api_name) = None /\
  (api_name = "transactions" -> amount_computable item).

(** The external identity [store] reads from a record. *)
Definition ext_id_of (r : UnifiedEntity) : value :=
  default VNone (dict_get "external_id" (data r)).

(** The constraints [core/models.py] declares on the relational tables:
    primary keys are unique and the two foreign keys of a [Transaction]
    point at existing rows. *)
Definition relational_ok (w : world) : Prop :=
  NoDup (map user_pk (user_profiles w)) /\
  NoDup (map product_pk (products w)) /\
  (forall t, t ∈ transactions w ->
     (exists u, u ∈ user_profiles w /\ user_pk u = transaction_user t) /\
     (exists p, p ∈ products w /\ product_pk p = transaction_product t)).

Definition is_transaction_entity (r : UnifiedEntity) : Prop :=
  entity_type r = "transaction".

(** The Response Cache holds at most one row per endpoint. *)
Definition cache_keyed (rows : list APIDataCache) : Prop :=
  forall url, (length (filter (fun r => endpoint r = url) rows) <= 1)%nat.


(** The mapping [fetch_all_data] builds from the three outcome messages. *)
Definition results_of (m1 m2 m3 : string) : gmap string string :=
  <["transactions" := m3]> (<["users" := m2]> (<["products" := m1]> ∅)).

(** The three ways one pass of the loop body can go. *)
Inductive store_step (item : UnifiedEntity) (w : world)
  : world * result unit -> Prop :=
  | step_skip :
      truthy (default VNone (dict_get "external_id" (data item))) = false \/
      default VNone (dict_get "external_id" (data item))
        ∈ external_ids (unified w) ->
      store_step item w (w, Ok tt)
  | step_conflict :
      store_step item w (w, Raised IntegrityError)
  | step_insert v :
      dict_get "external_id" (data item) = Some v ->
      truthy v = true ->
      v ∉ external_ids (unified w) ->
      existsb (fun r => Nat.eqb (entity_id r) (entity_id item)) (unified w)
        = false ->
      store_step item w (set_unified (unified w ++ [item]) w, Ok tt).

(** *** The remaining views of [core/views.py] and the admin action *)

(** [UnifiedEntitySerializer(data_qs, many=True).data]: the serializer keeps
    [entity_id], [entity_type], [timestamp], [data] and [metadata], the five
    fields of the record. *)
Definition UnifiedEntitySerializer (rows : list UnifiedEntity)
  : list UnifiedEntity := rows.

Definition DataByTypeView_get (entity_type_arg : string) (w : world)
  : view_response (list UnifiedEntity) :=
  if bool_decide (entity_type_arg ∈ ["product"; "user"; "transaction"])
  then
    Status_200
      (UnifiedEntitySerializer
         (filter (fun r => entity_type r = entity_type_arg) (unified w)))
  else
    Status_400
      "Invalid entity_type. Allowed types: 'product', 'user', 'transaction'.".

Definition catch_all (e : exn) : bool := true.

Definition EnrichTransactionsView_post : M (view_response string) :=
  try_except
    (count <- enrich_transactions ;;
     ret (Status_200
            ("Successfully enriched " +:+ pretty count +:+
             " transaction records.")))
    catch_all
    (ret (Status_500
            "An error occurred during the transaction enrichment process.")).

(** [core/admin.py]: the loop of the admin action and the message it
    flashes; the selected queryset is not used. *)
Fixpoint admin_loop (api_names : list string) (success_count : nat) : M nat :=
  match api_names with
  | [] => ret success_count
  | api_name :: rest =>
      raw_data <- fetch_data_from_api api_name ;;
      if truthy raw_data then
        transformed_data <- transform_data api_name raw_data ;;
        store_transformed_data transformed_data ;;;
        admin_loop rest (S success_count)
      else admin_loop rest success_count
  end.

Definition fetch_and_store_api_data : M string :=
  success_count <- admin_loop ["products"; "users"; "transactions"] 0 ;;
  ret ("Successfully fetched & processed " +:+ pretty success_count +:+
       " APIs.").

(** *** Invariants and measures used by the further properties *)

(** The three invariants the pipeline maintains together. *)
Definition pipeline_inv (w : world) : Prop :=
  ids_fresh w /\ ext_unique (unified w) /\ cache_keyed (api_cache w).

(** The singular form a source's records are tagged with. *)
Definition entity_type_of (api_name : string) : string :=
  if String.eqb api_name "products" then "product"
  else if String.eqb api_name "users" then "user"
  else "transaction".

(** Everything of a world but the Unified Records and the three counters. *)
Definition same_tables (w w' : world) : Prop :=
  api_cache w' = api_cache w /\ user_profiles w' = user_profiles w /\
  categories w' = categories w /\ products w' = products w /\
  transactions w' = transactions w.

Definition total (l : list decimal) : decimal := foldr Z.add 0 l.

(** A null aggregate counted as 0. *)
Definition spent (row : user_insight) : decimal := default 0 (total_spent row).

(** The errors the normaliser's own reads can raise. *)
Definition normaliser_error (e : exn) : Prop :=
  match e with
  | KeyError _ | TypeError | AttributeError | ValueError | OverflowError =>
      True
  | IntegrityError | MultipleObjectsReturned | RequestException _ => False
  end.

(** What [fetch_data_from_api] makes of a reply when the cache write goes
    through. *)
Definition reply_value (reply : http_reply) : value :=
  match reply with
  | Failed _ => VList []
  | Response status_code body =>
      if (400 <=? status_code) && (status_code <? 600) then VList []
      else
        match body with
        | Some payload => if truthy payload then payload else VList []
        | None => VList []
        end
  end.



(** The sources a result mapping reports as processed. *)
Definition processed_count (results : gmap string string) : nat :=
  length
    (filter (fun api_name =>
               results !! api_name
               = Some ("Processed data from " +:+ api_name))
            ["products"; "users"; "transactions"]).

(** A record as the enrichment engine writes them. *)
Definition enriched_record (r : UnifiedEntity) : Prop :=
  entity_type r = "transaction" /\
  dict_get "external_id" (data r) = None /\
  dict_get "source" (metadata r) = Some (VStr "Enriched Data").

(** The tables the insight queries read. *)
Definition relational (w : world)
  : list UserProfile * list Category * list Product * list Transaction :=
  (user_profiles w, categories w, products w, transactions w).

(** Both insight views answer in [w'] what they answer in [w]. *)
Definition same_insights (w w' : world) : Prop :=
  UserInsightsView_get w' = UserInsightsView_get w /\
  ProductInsightsView_get w' = ProductInsightsView_get w.

(** ** Properties *)

(** *** Equality of JSON values *)

Lemma float_eqb_eq (x y : float) : float_eqb x y = true <-> x = y.
Proof.
  destruct x as [s|s| |s m e], y as [t|t| |t n f]; simpl;
    try (split; [discriminate | congruence]); try tauto.
  - rewrite Bool.eqb_true_iff. split; congruence.
  - rewrite Bool.eqb_true_iff. split; congruence.
  - rewrite !andb_true_iff, Bool.eqb_true_iff, Pos.eqb_eq, Z.eqb_eq.
    split; [intros [[-> ->] ->]; reflexivity | intros [= -> -> ->]; auto].
Qed.

Lemma value_ind_nested (P : value -> Prop)
    (HNone : P VNone)
    (HBool : forall b, P (VBool b))
    (HInt : forall z, P (VInt z))
    (HFloat : forall f, P (VFloat f))
    (HStr : forall s, P (VStr s))
    (HList : forall l, Forall P l -> P (VList l))
    (HDict : forall d, Forall (fun kv => P (snd kv)) d -> P (VDict d)) :
  forall v, P v.
Proof.
  fix IH 1. intros [ |b|z|f|s|l|d];
    [exact HNone | apply HBool | apply HInt | apply HFloat | apply HStr | | ].
  - apply HList. induction l as [|x l IHl]; constructor; [apply IH | exact IHl].
  - apply HDict. induction d as [|[k x] d IHd]; constructor;
      [apply IH | exact IHd].
Qed.

Lemma value_eqb_eq (a b : value) : value_eqb a b = true <-> a = b.
Proof.
  revert b. induction a as [ |x|x|x|x|l IHl|d IHd] using value_ind_nested;
    intros [ |y|y|y|y|m|m]; simpl;
    try (split; [discriminate | congruence]); try tauto.
  - rewrite Bool.eqb_true_iff. split; congruence.
  - rewrite Z.eqb_eq. split; congruence.
  - rewrite float_eqb_eq. split; congruence.
  - rewrite String.eqb_eq. split; congruence.
  - revert m. induction IHl as [|u l Hu _ IH]; intros [|v m];
      try (split; [discriminate | congruence]); try tauto.
    rewrite andb_true_iff, Hu, IH.
    split; [intros [-> [= ->]]; reflexivity | intros [= -> ->]; auto].
  - revert m. induction IHd as [|[j u] d Hu _ IH]; intros [|[k v] m];
      try (split; [discriminate | congruence]); try tauto.
    simpl in Hu. rewrite !andb_true_iff, String.eqb_eq, Hu, IH.
    split; [intros [[-> ->] [= ->]]; reflexivity | intros [= -> -> ->]; auto].
Qed.

Lemma value_eqb_refl (a : value) : value_eqb a a = true.
Proof. apply value_eqb_eq. reflexivity. Qed.

(** *** The deduplicating store *)

Lemma external_ids_app (l1 l2 : list UnifiedEntity) :
  external_ids (l1 ++ l2) = external_ids l1 ++ external_ids l2.
Proof. apply omap_app. Qed.

Lemma external_id_exists_iff (v : value) (rows : list UnifiedEntity) :
  external_id_exists v rows = true <-> v ∈ external_ids rows.
Proof.
  unfold external_id_exists, external_ids.
  induction rows as [|r rows IH]; simpl.
  - split; [discriminate | intros H; inversion H].
  - destruct (dict_get "external_id" (data r)) as [x|] eqn:E; simpl.
    + rewrite orb_true_iff, IH, value_eqb_eq, elem_of_cons.
      split; intros [H|H]; auto.
    + exact IH.
Qed.

Lemma store_item_step (item : UnifiedEntity) (w : world) :
  store_step item w (store_item item w).
Proof.
  unfold store_item, UnifiedEntity_create.
  destruct (truthy _) eqn:T; simpl.
  - destruct (external_id_exists _ _) eqn:X; simpl.
    + constructor. right. apply external_id_exists_iff, X.
    + destruct (existsb _ _) eqn:U; [constructor|].
      destruct (dict_get "external_id" (data item)) as [v|] eqn:G;
        [|discriminate T].
      simpl in *. apply (step_insert _ _ v); auto.
      intros H. apply external_id_exists_iff in H. congruence.
  - constructor. left. exact T.
Qed.

Lemma store_item_skip (item : UnifiedEntity) (w : world) :
  truthy (default VNone (dict_get "external_id" (data item))) = false \/
  default VNone (dict_get "external_id" (data item))
    ∈ external_ids (unified w) ->
  store_item item w = (w, Ok tt).
Proof.
  intros H. unfold store_item.
  destruct (truthy _) eqn:T; simpl; [|reflexivity].
  destruct H as [H|H]; [discriminate|].
  apply external_id_exists_iff in H. rewrite H. reflexivity.
Qed.

Lemma store_keeps_external_ids (recs : list UnifiedEntity) (w : world)
    (v : value) :
  v ∈ external_ids (unified w) ->
  v ∈ external_ids (unified (fst (store_transformed_data recs w))).
Proof.
  revert w. induction recs as [|item rest IH]; intros w Hv; simpl; [exact Hv|].
  unfold bind.
  pose proof (store_item_step item w) as Hs.
  inversion Hs as [_ E|E|x G T N U E]; simpl; auto.
  apply IH. simpl. rewrite external_ids_app. apply elem_of_app. auto.
Qed.

Lemma store_keeps_ext_unique (recs : list UnifiedEntity) (w : world) :
  ext_unique (unified w) ->
  ext_unique (unified (fst (store_transformed_data recs w))).
Proof.
  revert w. induction recs as [|item rest IH]; intros w Hw; simpl; [exact Hw|].
  unfold bind.
  pose proof (store_item_step item w) as Hs.
  inversion Hs as [_ E|E|v G T N U E]; simpl; auto.
  apply IH. simpl. unfold ext_unique in *. rewrite external_ids_app.
  unfold external_ids at 2. simpl. rewrite G. simpl.
  apply NoDup_app. split; [exact Hw|]. split; [|apply NoDup_singleton].
  intros x Hx Hx'. apply list_elem_of_singleton in Hx'. congruence.
Qed.

Lemma store_again (recs : list UnifiedEntity) (w : world) :
  store_transformed_data recs (fst (store_transformed_data recs w))
  = store_transformed_data recs w.
Proof.
  revert w. induction recs as [|item rest IH]; intros w; simpl; [reflexivity|].
  pose proof (store_item_step item w) as Hs.
  unfold bind at 2 3.
  inversion Hs as [Hk E|E|v G T N U E]; simpl.
  - unfold bind. rewrite store_item_skip, IH; [reflexivity|].
    destruct Hk as [Hk|Hk]; [left; exact Hk|right].
    apply store_keeps_external_ids, Hk.
  - unfold bind. rewrite <- E. reflexivity.
  - unfold bind. rewrite store_item_skip, IH; [reflexivity|].
    right. apply store_keeps_external_ids. simpl.
    rewrite external_ids_app, G. apply elem_of_app. right.
    unfold external_ids. simpl. rewrite G. simpl. apply list_elem_of_here.
Qed.

(** C1: storing the same sequence of records a second time leaves the
    persisted rows exactly as the first call left them, with the same
    outcome, and no two persisted records share an external identity. *)
Theorem store_twice_is_store_once (recs : list UnifiedEntity) (w : world) :
  ext_unique (unified w) ->
  store_transformed_data recs (fst (store_transformed_data recs w))
    = store_transformed_data recs w /\
  unified (fst (store_transformed_data recs
                  (fst (store_transformed_data recs w))))
    = unified (fst (store_transformed_data recs w)) /\
  ext_unique (unified (fst (store_transformed_data recs w))).
Proof.
  intros Hw. split; [apply store_again|]. split.
  - rewrite store_again. reflexivity.
  - apply store_keeps_ext_unique, Hw.
Qed.

Lemma entity_id_unused_iff (item : UnifiedEntity) (rows : list UnifiedEntity) :
  existsb (fun r => Nat.eqb (entity_id r) (entity_id item)) rows = false <->
  (forall r, r ∈ rows -> entity_id r <> entity_id item).
Proof.
  induction rows as [|x rows IH]; simpl.
  - split; [intros _ r H; inversion H | reflexivity].
  - rewrite orb_false_iff, IH, Nat.eqb_neq. split.
    + intros [H1 H2] r Hr. apply elem_of_cons in Hr as [->|Hr]; auto.
    + intros H. split; [apply H; left | intros r Hr; apply H; right; exact Hr].
Qed.

Lemma truthy_falsy_literals (v : value) :
  v = VInt 0 \/ v = VStr "" \/ v = VNone -> truthy v = false.
Proof. intros [->|[->| ->]]; reflexivity. Qed.


(** C10: a record whose external identity is present but is the integer 0,
    the empty string or null is skipped and nothing is persisted, whatever
    the store holds, exactly as a record without the identity is. *)
Theorem store_skips_falsy_identity (item : UnifiedEntity) (w : world)
    (v : value) :
  dict_get "external_id" (data item) = Some v ->
  v = VInt 0 \/ v = VStr "" \/ v = VNone ->
  store_item item w = (w, Ok tt) /\
  store_transformed_data [item] w = (w, Ok tt) /\
  (forall item', dict_get "external_id" (data item') = None ->
                 store_item item w = store_item item' w).
Proof.
  intros G Hv. apply truthy_falsy_literals in Hv.
  assert (E : store_item item w = (w, Ok tt)).
  { apply store_item_skip. rewrite G. left. exact Hv. }
  split; [exact E|]. split.
  - simpl. unfold bind. rewrite E. reflexivity.
  - intros item' G'. rewrite E. symmetry.
    apply store_item_skip. rewrite G'. left. reflexivity.
Qed.

(** *** The normaliser *)

Lemma for_append_acc (body : value -> M UnifiedEntity) (items : list value)
    (acc : list UnifiedEntity) (w : world) :
  for_append body items acc w =
  match for_append body items [] w with
  | (w', Ok news) => (w', Ok (acc ++ news))
  | (w', Raised e) => (w', Raised e)
  end.
Proof.
  revert acc w. induction items as [|item rest IH]; intros acc w; simpl.
  - unfold ret. rewrite app_nil_r. reflexivity.
  - unfold bind. destruct (body item w) as [w1 [r|e]]; [|reflexivity].
    rewrite (IH (acc ++ [r])), (IH [r]).
    destruct (for_append body rest [] w1) as [w2 [news|e]]; [|reflexivity].
    rewrite <- app_assoc. reflexivity.
Qed.

Lemma for_append_cons (body : value -> M UnifiedEntity) (item : value)
    (rest : list value) (w : world) :
  for_append body (item :: rest) [] w =
  match body item w with
  | (w1, Ok r) =>
      match for_append body rest [] w1 with
      | (w2, Ok news) => (w2, Ok (r :: news))
      | (w2, Raised e) => (w2, Raised e)
      end
  | (w1, Raised e) => (w1, Raised e)
  end.
Proof.
  simpl. unfold bind. destruct (body item w) as [w1 [r|e]]; [|reflexivity].
  apply for_append_acc.
Qed.

Lemma transform_data_loop (api_name : string) (raw_data : value) (w : world) :
  recognized api_name ->
  transform_data api_name raw_data w =
  match payload_items api_name raw_data with
  | Ok items => for_append (entry_for api_name) items [] w
  | Raised e => (w, Raised e)
  end.
Proof.
  intros [->|[->| ->]]; unfold transform_data, payload_items, entry_for; simpl;
    unfold bind, lift.
  - destruct (py_iter raw_data); reflexivity.
  - destruct (get_method raw_data "results" (VList [])); [|reflexivity].
    destruct (py_iter a); reflexivity.
  - destruct (py_iter raw_data); reflexivity.
Qed.

Lemma transform_data_unrecognized (api_name : string) (raw_data : value)
    (w : world) :
  ~ recognized api_name -> transform_data api_name raw_data w = (w, Ok []).
Proof.
  intros H. unfold transform_data.
  destruct (String.eqb_spec api_name "products") as [->|_];
    [exfalso; apply H; left; reflexivity|].
  destruct (String.eqb_spec api_name "users") as [->|_];
    [exfalso; apply H; right; left; reflexivity|].
  destruct (String.eqb_spec api_name "transactions") as [->|_];
    [exfalso; apply H; right; right; reflexivity|].
  reflexivity.
Qed.

Ltac run_entry :=
  unfold product_entry, user_entry, transaction_entry,
    bind, lift, uuid4, now, ret; simpl.

Ltac split_results :=
  repeat (match goal with
          | |- context [match subscript ?a ?b with _ => _ end] =>
              destruct (subscript a b) eqn:?
          | |- context [match get_method ?a ?b ?c with _ => _ end] =>
              destruct (get_method a b c) eqn:?
          | |- context [match py_float ?a with _ => _ end] =>
              destruct (py_float a) eqn:?
          end; simpl).

Ltac split_dicts :=
  repeat (match goal with
          | |- context [dict_get ?k ?d] => destruct (dict_get k d) eqn:?
          | |- context [match ?v with VDict _ => _ | _ => _ end] =>
              is_var v; destruct v
          end; simpl; try congruence).

Ltac split_dicts_in d :=
  repeat (match goal with
          | |- context [dict_get ?k d] => destruct (dict_get k d) eqn:?
          end; simpl).

Lemma product_entry_first_error item w e :
  first_error item (required_paths "products") = Some e ->
  snd (product_entry item w) = Raised e.
Proof.
  run_entry. unfold subscript. destruct item; simpl; try congruence.
  split_dicts.
Qed.

Lemma user_entry_first_error item w e :
  first_error item (required_paths "users") = Some e ->
  snd (user_entry item w) = Raised e.
Proof.
  run_entry. unfold subscript, get_method. destruct item; simpl; try congruence.
  split_dicts.
Qed.

Lemma transaction_entry_first_error item w e :
  amount_computable item ->
  first_error item (required_paths "transactions") = Some e ->
  snd (transaction_entry item w) = Raised e.
Proof.
  intros (x & f & Hx & Hf). run_entry. rewrite Hx. simpl. rewrite Hf. simpl.
  clear Hx Hf.
  unfold subscript, get_method. destruct item; simpl; try congruence.
  split_dicts.
Qed.

Lemma transaction_entry_amount_error item w :
  ~ amount_computable item ->
  exists e, snd (transaction_entry item w) = Raised e.
Proof.
  intros H. run_entry.
  destruct (get_method item "id" (VInt 1)) as [x|e] eqn:Hx; simpl; [|eauto].
  destruct (py_float x) as [f|e] eqn:Hf; simpl; [|eauto].
  exfalso. apply H. exists x, f. auto.
Qed.

Lemma entry_for_cases (P : (value -> M UnifiedEntity) -> Prop) api_name :
  P product_entry -> P user_entry -> P transaction_entry ->
  P (entry_for api_name).
Proof.
  intros H1 H2 H3. unfold entry_for.
  destruct (String.eqb api_name "products"); [exact H1|].
  destruct (String.eqb api_name "users"); [exact H2|exact H3].
Qed.

(** A record made by a loop body takes the next identifier; the tables are
    left alone. *)
Lemma entry_for_ok api_name item w w' r :
  entry_for api_name item w = (w', Ok r) ->
  entity_id r = uuids_drawn w /\ uuids_drawn w' = S (uuids_drawn w) /\
  unified w' = unified w.
Proof.
  revert item w w' r. apply entry_for_cases; intros item w w' r; run_entry;
    split_results; intros H; try discriminate H;
    injection H as <- <-; simpl; auto.
Qed.

(** The payload of a record depends on the raw item alone. *)
Lemma entry_for_data api_name item w1 w1' r1 w2 w2' r2 :
  entry_for api_name item w1 = (w1', Ok r1) ->
  entry_for api_name item w2 = (w2', Ok r2) ->
  data r1 = data r2.
Proof.
  revert item w1 w1' r1 w2 w2' r2.
  apply entry_for_cases; intros item w1 w1' r1 w2 w2' r2; run_entry;
    split_results; intros H1 H2; try discriminate H1;
    injection H1 as <- <-; injection H2 as <- <-; reflexivity.
Qed.

Lemma transaction_entry_amount item w w' r :
  transaction_entry item w = (w', Ok r) ->
  exists x f,
    subscript item "id" = Ok x /\ py_float x = Ok f /\
    dict_get "external_id" (data r) = Some x /\
    dict_get "amount" (data r)
      = Some (VFloat (float_mul f (float_of_Z 10))).
Proof.
  run_entry. unfold get_method, subscript.
  destruct item; simpl; try discriminate.
  destruct (dict_get "id" d) as [x|] eqn:Hid; simpl.
  - destruct (py_float x) as [f|] eqn:Hf; simpl; [|discriminate].
    split_dicts_in d; intros H; try discriminate H;
      injection H as <- <-; simpl; exists x, f; auto.
  - destruct (py_float (VInt 1)); simpl; discriminate.
Qed.

Lemma entry_for_succeeds api_name item w :
  recognized api_name ->
  first_error item (required_paths api_name) = None ->
  (api_name = "transactions" -> amount_computable item) ->
  exists r, snd (entry_for api_name item w) = Ok r.
Proof.
  intros [->|[->| ->]] H Ha; unfold entry_for; simpl; revert H.
  - run_entry. unfold subscript. destruct item; simpl; try congruence.
    split_dicts. eauto.
  - run_entry. unfold subscript, get_method.
    destruct item; simpl; try congruence. split_dicts; eauto.
  - destruct (Ha eq_refl) as (x & f & Hx & Hf).
    run_entry. rewrite Hx. simpl. rewrite Hf. simpl. clear Hx Hf.
    unfold subscript, get_method. destruct item; simpl; try congruence.
    split_dicts; eauto.
Qed.

Lemma for_append_ok_inv (body : value -> M UnifiedEntity) item rest w w' recs :
  for_append body (item :: rest) [] w = (w', Ok recs) ->
  exists w1 r news,
    body item w = (w1, Ok r) /\
    for_append body rest [] w1 = (w', Ok news) /\ recs = r :: news.
Proof.
  rewrite for_append_cons.
  destruct (body item w) as [w1 [r|e]]; [|discriminate].
  destruct (for_append body rest [] w1) as [w2 [news|e]] eqn:E;
    [|discriminate].
  intros [= <- <-]. exists w1, r, news. auto.
Qed.

Lemma for_append_app (body : value -> M UnifiedEntity) pre post w :
  for_append body (pre ++ post) [] w =
  match for_append body pre [] w with
  | (w1, Ok news) => for_append body post news w1
  | (w1, Raised e) => (w1, Raised e)
  end.
Proof.
  revert w. induction pre as [|x pre IH]; intros w; [reflexivity|].
  rewrite <- app_comm_cons, !for_append_cons.
  destruct (body x w) as [w1 [r|e]]; [|reflexivity].
  rewrite IH.
  destruct (for_append body pre [] w1) as [w2 [news|e]]; [|reflexivity].
  rewrite (for_append_acc body post news), (for_append_acc body post (r :: news)).
  destruct (for_append body post [] w2) as [w3 [more|e]]; reflexivity.
Qed.

Lemma for_append_raises (body : value -> M UnifiedEntity) items w :
  (exists item, item ∈ items /\
                forall w1, exists e, snd (body item w1) = Raised e) ->
  exists e, snd (for_append body items [] w) = Raised e.
Proof.
  intros (item & Hin & Hbad). revert w.
  induction items as [|x items IH]; intros w; [inversion Hin|].
  rewrite for_append_cons.
  destruct (body x w) as [w1 [r|e]] eqn:E; [|simpl; eauto].
  apply elem_of_cons in Hin as [->|Hin].
  - destruct (Hbad w) as [e He]. rewrite E in He. discriminate.
  - destruct (IH Hin w1) as [e He].
    destruct (for_append body items [] w1) as [w2 [news|e']];
      simpl in *; [discriminate|eauto].
Qed.

Lemma for_append_succeeds api_name items w :
  recognized api_name ->
  Forall (well_formed_item api_name) items ->
  exists w' recs, for_append (entry_for api_name) items [] w = (w', Ok recs).
Proof.
  intros Hr Hall. revert w.
  induction Hall as [|x items [Hx Ha] _ IH]; intros w; [simpl; eauto|].
  rewrite for_append_cons.
  destruct (entry_for_succeeds api_name x w Hr Hx Ha) as [r Hr'].
  destruct (entry_for api_name x w) as [w1 res]. simpl in Hr'. subst res.
  destruct (IH w1) as (w2 & news & ->). eauto.
Qed.

Lemma missing_field_first_error api_name item :
  missing_field api_name item ->
  exists e, first_error item (required_paths api_name) = Some e.
Proof.
  intros (path & Hin & Hp). unfold has_path in Hp.
  induction (required_paths api_name) as [|p paths IH]; [inversion Hin|].
  simpl. apply elem_of_cons in Hin as [->|Hin].
  - destruct (path_error item p); [eauto|discriminate].
  - destruct (path_error item p); eauto.
Qed.

Lemma entry_for_first_error api_name item w e :
  recognized api_name ->
  first_error item (required_paths api_name) = Some e ->
  (api_name = "transactions" -> amount_computable item) ->
  snd (entry_for api_name item w) = Raised e.
Proof.
  intros [->|[->| ->]] H Ha; unfold entry_for; simpl.
  - apply product_entry_first_error, H.
  - apply user_entry_first_error, H.
  - apply transaction_entry_first_error; auto.
Qed.

Lemma amount_computable_dec item :
  amount_computable item \/ ~ amount_computable item.
Proof.
  unfold amount_computable.
  destruct (get_method item "id" (VInt 1)) as [x|e] eqn:Hx.
  - destruct (py_float x) as [f|e] eqn:Hf; [left; eauto|].
    right. intros (x' & f' & [= <-] & Hf'). congruence.
  - right. intros (x' & f' & Hx' & _). discriminate.
Qed.

Lemma missing_field_raises api_name item w :
  recognized api_name -> missing_field api_name item ->
  exists e, snd (entry_for api_name item w) = Raised e.
Proof.
  intros Hr Hm. destruct (missing_field_first_error _ _ Hm) as [e He].
  destruct (amount_computable_dec item) as [Ha|Ha].
  - exists e. apply entry_for_first_error; auto.
  - destruct Hr as [->|[->| ->]].
    + exists e. apply entry_for_first_error; [left; reflexivity|exact He|].
      discriminate.
    + exists e. apply entry_for_first_error;
        [right; left; reflexivity|exact He|]. discriminate.
    + apply transaction_entry_amount_error, Ha.
Qed.

(** C4: for a recognized source, an item of the raw payload that lacks a
    required field makes normalisation raise, so that no record is returned
    for any item of the batch; and when the items before it are well
    formed, the error raised is the one of the first missing key. *)
Theorem missing_field_aborts_batch (api_name : string) (raw_data : value)
    (items : list value) (w : world) :
  recognized api_name ->
  payload_items api_name raw_data = Ok items ->
  (exists item, item ∈ items /\ missing_field api_name item) ->
  (exists e, snd (transform_data api_name raw_data w) = Raised e) /\
  (forall pre item post e,
      items = pre ++ item :: post ->
      Forall (well_formed_item api_name) pre ->
      first_error item (required_paths api_name) = Some e ->
      (api_name = "transactions" -> amount_computable item) ->
      snd (transform_data api_name raw_data w) = Raised e).
Proof.
  intros Hr Hitems (item & Hin & Hm).
  rewrite (transform_data_loop _ _ _ Hr), Hitems. split.
  - apply for_append_raises. exists item. split; [exact Hin|].
    intros w1. apply missing_field_raises; assumption.
  - intros pre x post e -> Hpre He Ha.
    rewrite for_append_app.
    destruct (for_append_succeeds api_name pre w Hr Hpre) as (w1 & news & ->).
    rewrite for_append_acc, for_append_cons.
    pose proof (entry_for_first_error api_name x w1 e Hr He Ha) as Hx.
    destruct (entry_for api_name x w1) as [w2 res]. simpl in Hx. subst res.
    reflexivity.
Qed.

Lemma fifty_is_five_times_ten :
  py_float (VInt 5) = Ok (float_of_Z 5) /\
  float_mul (float_of_Z 5) (float_of_Z 10) = float_of_Z 50.
Proof. split; vm_compute; reflexivity. Qed.

(** C6: every record normalised from a transactions payload carries as
    amount the float value of the item's id times 10.0, so an item with id
    5 gets 50.0; and a payload of well-formed items is normalised without
    error. *)
Theorem transaction_amount_is_id_times_ten (raw_data : value)
    (items : list value) (w : world) :
  py_iter raw_data = Ok items ->
  (Forall (well_formed_item "transactions") items ->
   is_ok (snd (transform_data "transactions" raw_data w)) = true) /\
  (forall w' recs,
      transform_data "transactions" raw_data w = (w', Ok recs) ->
      Forall2 (fun item r =>
                 exists x f,
                   subscript item "id" = Ok x /\ py_float x = Ok f /\
                   dict_get "amount" (data r)
                     = Some (VFloat (float_mul f (float_of_Z 10))) /\
                   (x = VInt 5 ->
                    dict_get "amount" (data r)
                      = Some (VFloat (float_of_Z 50))))
              items recs).
Proof.
  intros Hitems.
  assert (Hr : recognized "transactions") by (right; right; reflexivity).
  rewrite (transform_data_loop _ _ _ Hr).
  unfold payload_items. simpl. rewrite Hitems.
  change (entry_for "transactions") with transaction_entry. split.
  - intros Hall.
    destruct (for_append_succeeds "transactions" items w Hr Hall)
      as (w' & recs & E).
    change (entry_for "transactions") with transaction_entry in E.
    rewrite E. reflexivity.
  - clear Hitems. revert w. induction items as [|item rest IH]; intros w w' recs.
    + simpl. intros [= <- <-]. constructor.
    + intros H. apply for_append_ok_inv in H
        as (w1 & r & news & Hitem & Hrest & ->).
      constructor; [|eapply IH; exact Hrest].
      destruct (transaction_entry_amount _ _ _ _ Hitem)
        as (x & f & Hx & Hf & _ & Hamount).
      exists x, f. repeat split; auto.
      intros ->. rewrite Hamount.
      destruct fifty_is_five_times_ten as [H5 H50].
      rewrite H5 in Hf. injection Hf as <-. rewrite H50. reflexivity.
Qed.

(** *** Two runs over the same payload *)

Lemma for_append_ids api_name items w w' recs :
  for_append (entry_for api_name) items [] w = (w', Ok recs) ->
  unified w' = unified w /\
  uuids_drawn w' = (uuids_drawn w + length items)%nat /\
  Forall (fun r => (uuids_drawn w <= entity_id r < uuids_drawn w')%nat) recs /\
  NoDup (map entity_id recs).
Proof.
  revert w w' recs. induction items as [|item rest IH]; intros w w' recs.
  - simpl. intros [= <- <-]. repeat split; try constructor. simpl. lia.
  - intros H. apply for_append_ok_inv in H
      as (w1 & r & news & Hitem & Hrest & ->).
    apply entry_for_ok in Hitem as (Hid & Hn & Hu).
    apply IH in Hrest as (Hu' & Hn' & Hall & Hnd).
    split; [congruence|]. split; [simpl; lia|]. split.
    + constructor; [lia|].
      eapply Forall_impl; [exact Hall|]. simpl. intros; lia.
    + simpl. constructor; [|exact Hnd].
      intros Hin. apply list_elem_of_fmap in Hin as (r' & Hr' & Hin).
      rewrite Forall_forall in Hall. apply Hall in Hin. lia.
Qed.

Lemma for_append_same_data api_name items w1 w1' recs1 w2 w2' recs2 :
  for_append (entry_for api_name) items [] w1 = (w1', Ok recs1) ->
  for_append (entry_for api_name) items [] w2 = (w2', Ok recs2) ->
  Forall2 (fun a b => data a = data b) recs1 recs2.
Proof.
  revert w1 w1' recs1 w2 w2' recs2.
  induction items as [|item rest IH]; intros w1 w1' recs1 w2 w2' recs2.
  - simpl. intros [= <- <-] [= <- <-]. constructor.
  - intros H1 H2.
    apply for_append_ok_inv in H1 as (wa & ra & na & Ha & Hra & ->).
    apply for_append_ok_inv in H2 as (wb & rb & nb & Hb & Hrb & ->).
    constructor; [eapply entry_for_data; eauto|eapply IH; eauto].
Qed.



(** After a call that returned, every record handed in is represented. *)
Lemma store_ok_covers recs w w' :
  store_transformed_data recs w = (w', Ok tt) ->
  forall r, r ∈ recs ->
    truthy (ext_id_of r) = false \/ ext_id_of r ∈ external_ids (unified w').
Proof.
  revert w. induction recs as [|item rest IH]; intros w H r Hr;
    [inversion Hr|].
  simpl in H. unfold bind in H.
  pose proof (store_item_step item w) as Hs.
  apply elem_of_cons in Hr as [->|Hr].
  - inversion Hs as [Hk E|E|v G T N U E]; rewrite <- E in H.
    + destruct Hk as [Hk|Hk]; [left; exact Hk|right].
      replace w' with (fst (store_transformed_data rest w))
        by (rewrite H; reflexivity).
      apply store_keeps_external_ids, Hk.
    + discriminate.
    + right. replace w' with
        (fst (store_transformed_data rest
                (set_unified (unified w ++ [item]) w)))
        by (rewrite H; reflexivity).
      apply store_keeps_external_ids. simpl. rewrite external_ids_app.
      apply elem_of_app. right. unfold external_ids, ext_id_of. simpl.
      rewrite G. simpl. apply list_elem_of_here.
  - destruct (store_item item w) as [w1 [[]|e]]; [|discriminate].
    eapply IH; eauto.
Qed.

Lemma store_all_skipped recs w :
  (forall r, r ∈ recs ->
     truthy (ext_id_of r) = false \/ ext_id_of r ∈ external_ids (unified w)) ->
  store_transformed_data recs w = (w, Ok tt).
Proof.
  induction recs as [|item rest IH]; intros H; [reflexivity|].
  simpl. unfold bind. rewrite store_item_skip.
  - apply IH. intros r Hr. apply H. right. exact Hr.
  - apply (H item). left.
Qed.

Lemma recognized_dec api_name : recognized api_name \/ ~ recognized api_name.
Proof.
  unfold recognized.
  destruct (decide (api_name = "products")); [auto|].
  destruct (decide (api_name = "users")); [auto|].
  destruct (decide (api_name = "transactions")); [auto|].
  right. intros [?|[?|?]]; contradiction.
Qed.

Lemma Forall2_partner {A B} (P : A -> B -> Prop) (l1 : list A) (l2 : list B) :
  Forall2 P l1 l2 -> forall b, b ∈ l2 -> exists a, a ∈ l1 /\ P a b.
Proof.
  induction 1 as [|a b l1 l2 Hab _ IH]; intros x Hx; [inversion Hx|].
  apply elem_of_cons in Hx as [->|Hx].
  - exists a. split; [left|exact Hab].
  - destruct (IH x Hx) as (a' & Ha' & HP). exists a'. split; [right|]; auto.
Qed.



(** *** The enrichment engine *)

Lemma filter_none {A} (key : A -> nat) (k : nat) (l : list A) :
  k ∉ map key l -> filter (fun y => key y = k) l = [].
Proof.
  induction l as [|a l IH]; intros Hk; [reflexivity|].
  simpl in Hk. apply not_elem_of_cons in Hk as [Hne Hk].
  rewrite filter_cons_False by congruence. apply IH, Hk.
Qed.

Lemma filter_by_key {A} (key : A -> nat) (k : nat) (l : list A) :
  NoDup (map key l) ->
  (exists x, x ∈ l /\ key x = k) ->
  exists x, filter (fun y => key y = k) l = [x].
Proof.
  induction l as [|a l IH]; intros Hnd (x & Hx & Hk); [inversion Hx|].
  simpl in Hnd. apply NoDup_cons in Hnd as [Ha Hnd].
  destruct (decide (key a = k)) as [Heq|Hne].
  - exists a. rewrite filter_cons_True by exact Heq.
    rewrite filter_none; [reflexivity|]. rewrite <- Heq. exact Ha.
  - rewrite filter_cons_False by exact Hne. apply IH; [exact Hnd|].
    apply elem_of_cons in Hx as [->|Hx]; [contradiction|eauto].
Qed.

Lemma select_related_length (w : world) :
  relational_ok w -> length (select_related w) = length (transactions w).
Proof.
  intros (Hu & Hp & Hfk). unfold select_related.
  induction (transactions w) as [|t ts IH]; [reflexivity|].
  simpl. rewrite length_app, IH
    by (intros t' Ht'; apply Hfk; right; exact Ht').
  destruct (Hfk t) as [Hut Hpt]; [left|].
  destruct (filter_by_key user_pk _ _ Hu Hut) as [u ->].
  destruct (filter_by_key product_pk _ _ Hp Hpt) as [p ->].
  reflexivity.
Qed.

Lemma enrich_loop_spec rows (n : nat) (w : world) :
  ids_fresh w ->
  exists w' news,
    enrich_loop rows n w = (w', Ok (n + length rows)%nat) /\
    unified w' = unified w ++ news /\
    length news = length rows /\
    Forall (fun r => is_transaction_entity r /\
                     (uuids_drawn w <= entity_id r)%nat) news.
Proof.
  revert n w. induction rows as [|row rows IH]; intros n w Hw.
  - exists w, []. simpl. unfold ret. rewrite Nat.add_0_r, app_nil_r. auto.
  - simpl. unfold bind, uuid4, now, UnifiedEntity_create. simpl.
    set (new := {| entity_id := uuids_drawn w |}).
    assert (U : existsb (fun r => Nat.eqb (entity_id r) (uuids_drawn w))
                  (unified w) = false).
    { apply (entity_id_unused_iff new). intros r Hr. unfold ids_fresh in Hw.
      rewrite Forall_forall in Hw. apply Hw in Hr. simpl. lia. }
    rewrite U.
    set (w1 := set_unified _ _).
    destruct (IH (S n) w1) as (w' & news & E & Hu & Hl & Hall).
    { unfold ids_fresh, w1. simpl. apply Forall_app. split.
      - eapply Forall_impl; [exact Hw|]. simpl. intros; lia.
      - constructor; [simpl; lia|constructor]. }
    exists w', (new :: news). rewrite E. split; [f_equal; f_equal; lia|].
    split; [rewrite Hu; unfold w1; simpl; rewrite <- app_assoc; reflexivity|].
    split; [simpl; lia|]. constructor.
    + split; [reflexivity|simpl; lia].
    + eapply Forall_impl; [exact Hall|]. unfold w1. simpl.
      intros r [? ?]. split; [assumption|lia].
Qed.

Lemma filter_all {A} (P : A -> Prop) `{forall x, Decision (P x)} (l : list A) :
  Forall P l -> filter P l = l.
Proof.
  induction 1 as [|x l Hx _ IH]; [reflexivity|].
  rewrite filter_cons_True by exact Hx. rewrite IH. reflexivity.
Qed.

Lemma filter_not_then_is (l : list UnifiedEntity) :
  filter is_transaction_entity
    (filter (fun r => entity_type r <> "transaction") l) = [].
Proof.
  induction l as [|x l IH]; [reflexivity|].
  rewrite filter_cons. destruct (decide (entity_type x <> "transaction")).
  - rewrite filter_cons_False by (unfold is_transaction_entity; assumption).
    exact IH.
  - exact IH.
Qed.

(** C2: a call to [enrich_transactions] returns the number of records it
    inserted, which is the number of [Transaction] rows; afterwards the
    transaction-typed Unified Records are exactly the inserted ones, as
    many as there are [Transaction] rows, and no transaction-typed record
    from before the call is left. *)
Theorem enrich_replaces_transactions (w : world) :
  ids_fresh w ->
  relational_ok w ->
  exists w' news,
    enrich_transactions w = (w', Ok (length news)) /\
    unified w'
      = filter (fun r => entity_type r <> "transaction") (unified w) ++ news /\
    length news = length (transactions w) /\
    length (filter is_transaction_entity (unified w'))
      = length (transactions w) /\
    (forall r, r ∈ unified w -> is_transaction_entity r ->
               (r ∉ unified w') /\
               forall r', r' ∈ news -> entity_id r' <> entity_id r).
Proof.
  intros Hw Hrel. unfold enrich_transactions, bind, delete_transaction_entities.
  set (w0 := set_unified _ w).
  assert (Hw0 : ids_fresh w0).
  { unfold ids_fresh, w0. simpl. unfold ids_fresh in Hw.
    rewrite Forall_forall in *. intros x Hx.
    apply list_elem_of_filter in Hx as [_ Hx]. apply Hw, Hx. }
  destruct (enrich_loop_spec (select_related w0) 0 w0 Hw0)
    as (w' & news & E & Hu & Hl & Hall).
  assert (Hlen : length news = length (transactions w)).
  { rewrite Hl. apply (select_related_length w0). exact Hrel. }
  exists w', news. rewrite E. simpl. rewrite <- Hl.
  split; [reflexivity|]. split; [exact Hu|]. split; [exact Hlen|].
  assert (Hnew : forall r, r ∈ unified w ->
            forall r', r' ∈ news -> entity_id r' <> entity_id r).
  { intros r Hr r' Hr'.
    rewrite Forall_forall in Hall. apply Hall in Hr' as [_ Hge].
    unfold ids_fresh in Hw. rewrite Forall_forall in Hw. apply Hw in Hr.
    unfold w0 in Hge. simpl in Hge. lia. }
  split.
  - rewrite Hu, filter_app. unfold w0. simpl.
    rewrite filter_not_then_is. simpl. rewrite filter_all; [exact Hlen|].
    eapply Forall_impl; [exact Hall|]. simpl. tauto.
  - intros r Hr Ht. split; [|apply Hnew; exact Hr].
    rewrite Hu. intros Hin. apply elem_of_app in Hin as [Hin|Hin].
    + unfold w0 in Hin. simpl in Hin.
      apply list_elem_of_filter in Hin as [Hnt _]. contradiction.
    + apply (Hnew r Hr r Hin). reflexivity.
Qed.

(** *** The source adapter *)

Lemma endpoints_cases api_name url :
  API_ENDPOINTS !! api_name = Some url ->
  recognized api_name /\ String.eqb url "" = false.
Proof.
  unfold API_ENDPOINTS, recognized.
  destruct (decide (api_name = "products")) as [->|H1].
  { rewrite lookup_insert_eq. intros [= <-]. auto. }
  rewrite lookup_insert_ne by congruence.
  destruct (decide (api_name = "users")) as [->|H2].
  { rewrite lookup_insert_eq. intros [= <-]. auto. }
  rewrite lookup_insert_ne by congruence.
  destruct (decide (api_name = "transactions")) as [->|H3].
  { rewrite lookup_insert_eq. intros [= <-]. auto. }
  rewrite lookup_insert_ne by congruence.
  rewrite lookup_empty. discriminate.
Qed.

Lemma endpoints_unknown api_name :
  ~ recognized api_name -> API_ENDPOINTS !! api_name = None.
Proof.
  intros H. destruct (API_ENDPOINTS !! api_name) as [url|] eqn:E;
    [|reflexivity].
  apply endpoints_cases in E as [Hr _]. contradiction.
Qed.

Lemma fetch_unfold api_name url w :
  API_ENDPOINTS !! api_name = Some url ->
  fetch_data_from_api api_name w =
  match http_get (requests_sent w) url with
  | Failed _ => (sent w, Ok (VList []))
  | Response status_code body =>
      if (400 <=? status_code) && (status_code <? 600)
      then (sent w, Ok (VList []))
      else
        match body with
        | None => (sent w, Ok (VList []))
        | Some payload =>
            match update_or_create url payload (clock (clock_reads w))
                    (tick (sent w)) with
            | (w', Ok _) =>
                (w', Ok (if truthy payload then payload else VList []))
            | (w', Raised e) => (w', Raised e)
            end
        end
  end.
Proof.
  intros E. unfold fetch_data_from_api. rewrite E.
  apply endpoints_cases in E as [_ ->].
  cbv beta iota delta [try_except bind get_response requests_get
    raise_for_status response_json now raise ret fst snd].
  destruct (http_get (requests_sent w) url) as [r|code body]; simpl;
    [reflexivity|].
  destruct ((400 <=? code) && (code <? 600)); simpl; [reflexivity|].
  destruct body as [payload|]; simpl; [|reflexivity].
  destruct (update_or_create url payload (clock (clock_reads w))
              (tick (sent w))) as [w' [[]|e]] eqn:U; [reflexivity|].
  unfold update_or_create in U.
  destruct (filter _ _) as [|? [|? ?]]; try discriminate U.
  injection U as <- <-. reflexivity.
Qed.

Lemma update_or_create_keyed url payload fetched w :
  cache_keyed (api_cache w) ->
  exists w', update_or_create url payload fetched w = (w', Ok tt) /\
             cache_keyed (api_cache w') /\ unified w' = unified w.
Proof.
  intros Hk. unfold update_or_create.
  pose proof (Hk url) as Hurl.
  destruct (filter (fun r => endpoint r = url) (api_cache w))
    as [|r [|r' rest]] eqn:F; simpl in Hurl; [| |lia].
  - eexists. split; [reflexivity|]. split; [|reflexivity].
    simpl. intros u. rewrite filter_app, length_app.
    destruct (decide (u = url)) as [->|Hne].
    + rewrite F. simpl. rewrite filter_cons_True by reflexivity.
      simpl. lia.
    + rewrite filter_cons_False by (simpl; congruence). simpl.
      pose proof (Hk u). lia.
  - eexists. split; [reflexivity|]. split; [|reflexivity].
    simpl. intros u. pose proof (Hk u) as Hu.
    assert (Hlen : forall l : list APIDataCache,
               length (filter (fun r => endpoint r = u)
                 (map (fun r => if decide (endpoint r = url)
                                then {| endpoint := url;
                                        response_data := payload;
                                        fetched_at := fetched |}
                                else r) l))
               = length (filter (fun r => endpoint r = u) l)).
    { induction l as [|x l IH]; [reflexivity|]. simpl map.
      rewrite !filter_cons.
      destruct (decide (endpoint x = url)) as [Hx|Hx]; simpl.
      - rewrite Hx. destruct (decide (url = u)); simpl; rewrite IH; reflexivity.
      - destruct (decide (endpoint x = u)); simpl; rewrite IH; reflexivity. }
    rewrite Hlen. exact Hu.
Qed.


Lemma fetch_keyed api_name w :
  cache_keyed (api_cache w) ->
  exists v, snd (fetch_data_from_api api_name w) = Ok v /\
            cache_keyed (api_cache (fst (fetch_data_from_api api_name w))) /\
            unified (fst (fetch_data_from_api api_name w)) = unified w.
Proof.
  intros Hk.
  destruct (API_ENDPOINTS !! api_name) as [url|] eqn:E.
  - rewrite (fetch_unfold _ _ _ E).
    destruct (http_get (requests_sent w) url) as [r|code body];
      [simpl; eauto|].
    destruct ((400 <=? code) && (code <? 600)); [simpl; eauto|].
    destruct body as [payload|]; [|simpl; eauto].
    destruct (update_or_create_keyed url payload (clock (clock_reads w))
                (tick (sent w)) Hk) as (w' & -> & Hk' & Hu).
    simpl. eauto.
  - unfold fetch_data_from_api. rewrite E. simpl. eauto.
Qed.


(** *** The orchestrator *)

Lemma run_no_data api_name w w1 raw :
  fetch_data_from_api api_name w = (w1, Ok raw) ->
  truthy raw = false ->
  fetch_and_store_data api_name w
    = (w1, Ok ("Failed to fetch data from " +:+ api_name)).
Proof.
  intros E T. unfold fetch_and_store_data, bind. rewrite E, T. reflexivity.
Qed.

Lemma run_processed api_name w w1 raw w2 recs w3 :
  fetch_data_from_api api_name w = (w1, Ok raw) ->
  truthy raw = true ->
  transform_data api_name raw w1 = (w2, Ok recs) ->
  store_transformed_data recs w2 = (w3, Ok tt) ->
  fetch_and_store_data api_name w
    = (w3, Ok ("Processed data from " +:+ api_name)).
Proof.
  intros E T N S. unfold fetch_and_store_data, bind.
  rewrite E, T. simpl. rewrite N, S. reflexivity.
Qed.

Lemma run_raises api_name w w1 raw w2 e :
  fetch_data_from_api api_name w = (w1, Ok raw) ->
  truthy raw = true ->
  transform_data api_name raw w1 = (w2, Raised e) ->
  fetch_and_store_data api_name w = (w2, Raised e).
Proof.
  intros E T N. unfold fetch_and_store_data, bind.
  rewrite E, T. simpl. rewrite N. reflexivity.
Qed.

Lemma run_all_collects w w1 w2 w3 m1 m2 m3 :
  fetch_and_store_data "products" w = (w1, Ok m1) ->
  fetch_and_store_data "users" w1 = (w2, Ok m2) ->
  fetch_and_store_data "transactions" w2 = (w3, Ok m3) ->
  fetch_all_data w = (w3, Ok (results_of m1 m2 m3)).
Proof.
  intros H1 H2 H3. unfold fetch_all_data, results_of. simpl. unfold bind.
  rewrite H1, H2, H3. reflexivity.
Qed.

Lemma run_all_stops_at_error w w1 e :
  fetch_and_store_data "products" w = (w1, Raised e) ->
  fetch_all_data w = (w1, Raised e).
Proof.
  intros H. unfold fetch_all_data. simpl. unfold bind. rewrite H. reflexivity.
Qed.

(** C8 (amended): [fetch_and_store_data] reports failure and runs neither
    the normaliser nor the store when fetch yields no data; when fetch
    yields data and neither normalising nor storing raises, it reports
    success after both; [fetch_all_data] runs the three sources in turn,
    and whenever each run returns a message, a failure report included, it
    returns the mapping from each source name to its message. *)
Theorem run_and_run_all (w : world) :
  (forall api_name w1 raw,
      fetch_data_from_api api_name w = (w1, Ok raw) ->
      truthy raw = false ->
      fetch_and_store_data api_name w
        = (w1, Ok ("Failed to fetch data from " +:+ api_name))) /\
  (forall api_name w1 raw w2 recs w3,
      fetch_data_from_api api_name w = (w1, Ok raw) ->
      truthy raw = true ->
      transform_data api_name raw w1 = (w2, Ok recs) ->
      store_transformed_data recs w2 = (w3, Ok tt) ->
      fetch_and_store_data api_name w
        = (w3, Ok ("Processed data from " +:+ api_name))) /\
  (forall w1 w2 w3 m1 m2 m3,
      fetch_and_store_data "products" w = (w1, Ok m1) ->
      fetch_and_store_data "users" w1 = (w2, Ok m2) ->
      fetch_and_store_data "transactions" w2 = (w3, Ok m3) ->
      fetch_all_data w = (w3, Ok (results_of m1 m2 m3)) /\
      results_of m1 m2 m3 !! "products" = Some m1 /\
      results_of m1 m2 m3 !! "users" = Some m2 /\
      results_of m1 m2 m3 !! "transactions" = Some m3 /\
      forall api_name,
        recognized api_name <-> is_Some (results_of m1 m2 m3 !! api_name)).
Proof.
  split; [|split].
  - intros. eapply run_no_data; eauto.
  - intros. eapply run_processed; eauto.
  - intros w1 w2 w3 m1 m2 m3 H1 H2 H3.
    split; [eapply run_all_collects; eassumption|].
    unfold results_of.
    split; [|split; [|split; [|intros api_name; split]]].
    + rewrite !lookup_insert_ne by done. apply lookup_insert_eq.
    + rewrite lookup_insert_ne by done. apply lookup_insert_eq.
    + apply lookup_insert_eq.
    + intros [->|[->| ->]].
      * rewrite !lookup_insert_ne by done.
        rewrite lookup_insert_eq. eauto.
      * rewrite lookup_insert_ne by done.
        rewrite lookup_insert_eq. eauto.
      * rewrite lookup_insert_eq. eauto.
    + unfold recognized. intros [m Hm].
      destruct (decide (api_name = "transactions")); [auto|].
      rewrite lookup_insert_ne in Hm by congruence.
      destruct (decide (api_name = "users")); [auto|].
      rewrite lookup_insert_ne in Hm by congruence.
      destruct (decide (api_name = "products")); [auto|].
      rewrite lookup_insert_ne in Hm by congruence.
      rewrite lookup_empty in Hm. discriminate.
Qed.

(** *** The insight queries *)

Lemma sql_sum_none (l : list decimal) : sql_sum l = None <-> l = [].
Proof. destruct l; simpl; split; congruence. Qed.

(** A user without transactions is reported with a null total, not 0. *)
Lemma user_insights_no_transactions (w : world) (u : UserProfile) :
  u ∈ user_profiles w ->
  (forall t, t ∈ transactions w -> transaction_user t <> user_pk u) ->
  exists rows row,
    UserInsightsView_get w = HTTP_200_OK rows /\ row ∈ rows /\
    ui_external_id row = user_external_id u /\ total_spent row = None.
Proof.
  intros Hu Hnone. unfold UserInsightsView_get, user_data.
  eexists. eexists. split; [reflexivity|].
  split; [apply list_elem_of_fmap; exists u; split; [reflexivity|exact Hu]|].
  simpl. split; [reflexivity|]. apply sql_sum_none.
  assert (E : filter (fun t => transaction_user t = user_pk u)
                (transactions w) = []).
  { induction (transactions w) as [|t ts IH]; [reflexivity|].
    rewrite filter_cons_False by (apply Hnone; left).
    apply IH. intros t' Ht'. apply Hnone. right. exact Ht'. }
  rewrite E. reflexivity.
Qed.

(** Without transactions the product insights are zero throughout. *)
Lemma product_insights_no_transactions (w : world) :
  transactions w = [] ->
  exists insights,
    ProductInsightsView_get w = HTTP_200_OK insights /\
    average_transaction_value insights = 0%Q /\
    Forall (fun c => snd c = 0%nat) (product_categories insights).
Proof.
  intros E. unfold ProductInsightsView_get, category_data, avg_transaction.
  eexists. split; [reflexivity|]. simpl. rewrite E.
  split; [reflexivity|]. apply Forall_forall. intros c Hc.
  apply list_elem_of_fmap in Hc as (cat & -> & _). simpl.
  induction (filter _ (products w)) as [|p ps IH]; [reflexivity|exact IH].
Qed.

(** ** Further properties *)

(** *** The store, seen from its callers *)

Lemma set_unified_same (w : world) : set_unified (unified w) w = w.
Proof. destruct w; reflexivity. Qed.

Lemma set_unified_twice rows rows' (w : world) :
  set_unified rows (set_unified rows' w) = set_unified rows w.
Proof. reflexivity. Qed.

(** What the loop of the store does to the table. *)
Lemma store_appends (recs : list UnifiedEntity) (w : world) :
  exists news,
    fst (store_transformed_data recs w) = set_unified (unified w ++ news) w /\
    sublist news recs /\
    Forall (fun r => truthy (ext_id_of r) = true /\
                     ext_id_of r ∉ external_ids (unified w)) news.
Proof.
  revert w. induction recs as [|item rest IH]; intros w.
  - exists []. simpl. rewrite app_nil_r, set_unified_same.
    repeat split; constructor.
  - simpl. unfold bind. pose proof (store_item_step item w) as Hs.
    inversion Hs as [_ E|E|v G T N U E]; simpl.
    + destruct (IH w) as (news & Hw & Hsub & Hall).
      exists news. split; [exact Hw|]. split; [|exact Hall].
      apply sublist_cons. exact Hsub.
    + exists []. rewrite app_nil_r, set_unified_same.
      split; [reflexivity|]. split; [apply sublist_nil_l|constructor].
    + destruct (IH (set_unified (unified w ++ [item]) w))
        as (news & Hw & Hsub & Hall).
      exists (item :: news). rewrite Hw. simpl.
      rewrite <- app_assoc. split; [reflexivity|].
      split; [apply sublist_skip; exact Hsub|].
      constructor.
      * unfold ext_id_of. rewrite G. simpl. auto.
      * eapply Forall_impl; [exact Hall|]. simpl. intros r [Ht Hn].
        split; [exact Ht|]. intros Hin. apply Hn.
        rewrite external_ids_app. apply elem_of_app. left. exact Hin.
Qed.

(** X1: [store_transformed_data] only appends.  The rows it found stay in
    place, the rows it adds are a subsequence of the batch, each with a
    truthy identity the table did not hold, and nothing else in the world
    changes, whether the call returns or raises. *)
Theorem store_only_appends (recs : list UnifiedEntity) (w : world) :
  exists news,
    fst (store_transformed_data recs w) = set_unified (unified w ++ news) w /\
    sublist news recs /\
    Forall (fun r => truthy (ext_id_of r) = true /\
                     ext_id_of r ∉ external_ids (unified w)) news.
Proof. exact (store_appends recs w). Qed.

(** X2: storing a concatenated batch is storing its parts in turn, the
    second part only when the first did not raise. *)
Theorem store_batch_splits (recs1 recs2 : list UnifiedEntity) (w : world) :
  store_transformed_data (recs1 ++ recs2) w =
  match store_transformed_data recs1 w with
  | (w1, Ok _) => store_transformed_data recs2 w1
  | (w1, Raised e) => (w1, Raised e)
  end.
Proof.
  revert w. induction recs1 as [|item rest IH]; intros w; [reflexivity|].
  simpl. unfold bind. destruct (store_item item w) as [w1 [[]|e]];
    [apply IH|reflexivity].
Qed.

(** *** The normaliser, seen from its callers *)

Lemma entry_for_world api_name item w :
  unified (fst (entry_for api_name item w)) = unified w /\
  same_tables w (fst (entry_for api_name item w)) /\
  (uuids_drawn w <= uuids_drawn (fst (entry_for api_name item w)))%nat.
Proof.
  revert item w. apply entry_for_cases; intros item w; run_entry;
    split_results; unfold same_tables; simpl; repeat split; lia.
Qed.

Lemma entry_for_type api_name item w w' r :
  entry_for api_name item w = (w', Ok r) ->
  entity_type r = entity_type_of api_name.
Proof.
  unfold entry_for, entity_type_of.
  destruct (String.eqb api_name "products");
    [|destruct (String.eqb api_name "users")];
    run_entry; split_results; intros H; try discriminate H;
    injection H as <- <-; reflexivity.
Qed.

(** Whether a loop body succeeds depends on the item alone. *)
Lemma entry_for_replay api_name item w w' r w2 :
  entry_for api_name item w = (w', Ok r) ->
  exists w2' r2, entry_for api_name item w2 = (w2', Ok r2).
Proof.
  revert item w w' r w2.
  apply entry_for_cases; intros item w w' r w2; run_entry;
    split_results; intros H; try discriminate H; eauto.
Qed.

Lemma same_tables_refl w : same_tables w w.
Proof. unfold same_tables. auto. Qed.

Lemma same_tables_trans w1 w2 w3 :
  same_tables w1 w2 -> same_tables w2 w3 -> same_tables w1 w3.
Proof.
  unfold same_tables. intros (?&?&?&?&?) (?&?&?&?&?).
  repeat split; congruence.
Qed.

Lemma for_append_world api_name items w :
  unified (fst (for_append (entry_for api_name) items [] w)) = unified w /\
  same_tables w (fst (for_append (entry_for api_name) items [] w)) /\
  (uuids_drawn w
   <= uuids_drawn (fst (for_append (entry_for api_name) items [] w)))%nat.
Proof.
  revert w. induction items as [|item rest IH]; intros w.
  - simpl. split; [reflexivity|]. split; [apply same_tables_refl|lia].
  - rewrite for_append_cons.
    destruct (entry_for_world api_name item w) as (Hu & Ht & Hn).
    destruct (entry_for api_name item w) as [w1 [r|e]]; simpl in *; [|auto].
    destruct (IH w1) as (Hu' & Ht' & Hn').
    destruct (for_append (entry_for api_name) rest [] w1) as [w2 [news|e]];
      simpl in *; (split; [congruence|split;
                   [eapply same_tables_trans; eauto|lia]]).
Qed.

Lemma for_append_replay api_name items w w' recs w2 :
  for_append (entry_for api_name) items [] w = (w', Ok recs) ->
  exists w2' recs2,
    for_append (entry_for api_name) items [] w2 = (w2', Ok recs2).
Proof.
  revert w w' recs w2. induction items as [|item rest IH];
    intros w w' recs w2 H; [simpl; eauto|].
  apply for_append_ok_inv in H as (w1 & r & news & Hitem & Hrest & ->).
  rewrite for_append_cons.
  destruct (entry_for_replay _ _ _ _ _ w2 Hitem) as (wa & r2 & ->).
  destruct (IH _ _ _ wa Hrest) as (wb & news2 & ->). eauto.
Qed.

Lemma for_append_shape api_name items w w' recs :
  for_append (entry_for api_name) items [] w = (w', Ok recs) ->
  map entity_id recs = seq (uuids_drawn w) (length items) /\
  Forall (fun r => entity_type r = entity_type_of api_name) recs.
Proof.
  revert w w' recs. induction items as [|item rest IH]; intros w w' recs.
  - simpl. intros [= <- <-]. split; [reflexivity|constructor].
  - intros H. apply for_append_ok_inv in H
      as (w1 & r & news & Hitem & Hrest & ->).
    pose proof (entry_for_type _ _ _ _ _ Hitem) as Ht.
    apply entry_for_ok in Hitem as (Hid & Hn & _).
    apply IH in Hrest as (Hids & Hall).
    simpl. rewrite Hid, Hids, Hn. split; [reflexivity|].
    constructor; assumption.
Qed.

(** X3: a successful normalisation makes one record per item of the
    payload, in order, tagged with the singular form of the source and
    numbered with the next identifiers; it reads no table and writes none. *)
Theorem transform_data_one_record_per_item (api_name : string)
    (raw_data : value) (w w' : world) (recs : list UnifiedEntity) :
  recognized api_name ->
  transform_data api_name raw_data w = (w', Ok recs) ->
  exists items,
    payload_items api_name raw_data = Ok items /\
    length recs = length items /\
    map entity_id recs = seq (uuids_drawn w) (length items) /\
    Forall (fun r => entity_type r = entity_type_of api_name) recs /\
    uuids_drawn w' = (uuids_drawn w + length items)%nat /\
    unified w' = unified w /\ same_tables w w'.
Proof.
  intros Hr H. rewrite (transform_data_loop _ _ _ Hr) in H.
  destruct (payload_items api_name raw_data) as [items|e]; [|discriminate].
  exists items. split; [reflexivity|].
  destruct (for_append_shape _ _ _ _ _ H) as (Hids & Hty).
  destruct (for_append_world api_name items w) as (Hu & Ht & _).
  rewrite H in Hu, Ht. simpl in Hu, Ht.
  apply for_append_ids in H as (_ & Hn & _ & _).
  split; [|auto 10].
  rewrite <- (length_map entity_id recs), Hids. apply length_seq.
Qed.

(** X4: the payloads at the edge.  An empty list gives no record for every
    source name but users, and so does a users payload without [results]; a
    users payload that is a list, the empty one included, raises
    [AttributeError]; a products or transactions payload that cannot be
    iterated raises [TypeError]; an unrecognized source name gives no record
    whatever the payload.  None of these draws an identifier or reads the
    clock. *)
Theorem transform_data_edge_payloads (api_name : string) (w : world) :
  (api_name <> "users" ->
   transform_data api_name (VList []) w = (w, Ok [])) /\
  (forall d, dict_get "results" d = None ->
             transform_data "users" (VDict d) w = (w, Ok [])) /\
  (forall l, transform_data "users" (VList l) w = (w, Raised AttributeError)) /\
  (forall raw_data,
      api_name = "products" \/ api_name = "transactions" ->
      py_iter raw_data = Raised TypeError ->
      transform_data api_name raw_data w = (w, Raised TypeError)) /\
  (forall raw_data,
      ~ recognized api_name ->
      transform_data api_name raw_data w = (w, Ok [])).
Proof.
  split; [|split; [|split; [|split]]].
  - intros Hu. unfold transform_data.
    destruct (String.eqb api_name "products"); [reflexivity|].
    destruct (String.eqb_spec api_name "users"); [contradiction|].
    destruct (String.eqb api_name "transactions"); reflexivity.
  - intros d Hd. unfold transform_data. simpl. unfold bind, lift. simpl.
    rewrite Hd. reflexivity.
  - intros l. reflexivity.
  - intros raw_data [-> | ->] Hraw; unfold transform_data; simpl;
      unfold bind, lift; rewrite Hraw; reflexivity.
  - intros raw_data Hr. apply transform_data_unrecognized, Hr.
Qed.

(** *** The source adapter, seen from its callers *)






(** X6: what fetch returns is the empty list or a truthy payload, never
    another falsy value; so a reply whose JSON body is falsy (an empty
    object, 0, null, the empty string) makes the run report failure without
    normalising or storing anything. *)
Theorem fetch_result_empty_or_truthy (api_name : string) (w w1 : world)
    (v : value) :
  fetch_data_from_api api_name w = (w1, Ok v) ->
  (v = VList [] /\
   fetch_and_store_data api_name w
     = (w1, Ok ("Failed to fetch data from " +:+ api_name))) \/
  truthy v = true.
Proof.
  intros H.
  assert (Hv : v = VList [] \/ truthy v = true).
  { destruct (API_ENDPOINTS !! api_name) as [url|] eqn:E.
    - rewrite (fetch_unfold _ _ _ E) in H.
      destruct (http_get (requests_sent w) url) as [r|code body];
        [injection H as <- <-; auto|].
      destruct ((400 <=? code) && (code <? 600));
        [injection H as <- <-; auto|].
      destruct body as [payload|]; [|injection H as <- <-; auto].
      destruct (update_or_create _ _ _ _) as [w' [[]|e]]; [|discriminate].
      injection H as <- <-. destruct (truthy payload) eqn:T; auto.
    - unfold fetch_data_from_api in H. rewrite E in H.
      injection H as <- <-. auto. }
  destruct Hv as [-> | Hv]; [left|right; exact Hv].
  split; [reflexivity|].
  unfold fetch_and_store_data, bind. rewrite H. reflexivity.
Qed.

(** X7: for a source name outside the configured three, a run reports
    failure and leaves the whole world as it was: no request, no cache row,
    no identifier drawn, no record stored. *)
Theorem run_unrecognized_source (api_name : string) (w : world) :
  ~ recognized api_name ->
  fetch_and_store_data api_name w
    = (w, Ok ("Failed to fetch data from " +:+ api_name)).
Proof.
  intros H. unfold fetch_and_store_data, bind, fetch_data_from_api.
  rewrite (endpoints_unknown _ H). reflexivity.
Qed.

(** *** A run and the invariants *)

Lemma subscript_error v k e :
  subscript v k = Raised e -> normaliser_error e.
Proof.
  unfold subscript. destruct v; try (intros [= <-]; exact I).
  destruct (dict_get k d); [discriminate|intros [= <-]; exact I].
Qed.

Lemma get_method_error v k dflt e :
  get_method v k dflt = Raised e -> normaliser_error e.
Proof. destruct v; simpl; try discriminate; intros [= <-]; exact I. Qed.

Lemma py_float_error v e : py_float v = Raised e -> normaliser_error e.
Proof.
  destruct v; simpl; try discriminate; try (intros [= <-]; exact I).
  - destruct (float_of_Z z); try discriminate. intros [= <-]. exact I.
  - destruct (float_of_str s); [discriminate|intros [= <-]; exact I].
Qed.

Lemma py_iter_error v e : py_iter v = Raised e -> normaliser_error e.
Proof. destruct v; simpl; try discriminate; intros [= <-]; exact I. Qed.

Lemma entry_for_error api_name item w e :
  snd (entry_for api_name item w) = Raised e -> normaliser_error e.
Proof.
  revert item w e. apply entry_for_cases; intros item w e; run_entry;
    split_results; intros H; try discriminate H; injection H as <-;
    eauto using subscript_error, get_method_error, py_float_error.
Qed.

Lemma for_append_error api_name items w e :
  snd (for_append (entry_for api_name) items [] w) = Raised e ->
  normaliser_error e.
Proof.
  revert w. induction items as [|item rest IH]; intros w; [discriminate|].
  rewrite for_append_cons.
  pose proof (entry_for_error api_name item w) as He.
  destruct (entry_for api_name item w) as [w1 [r|e1]]; simpl in *;
    [|intros [= <-]; apply He; reflexivity].
  pose proof (IH w1) as IH1.
  destruct (for_append (entry_for api_name) rest [] w1) as [w2 [news|e2]];
    simpl in *; [discriminate|exact IH1].
Qed.

(** What normalising does to the world and which errors it can raise,
    whatever the source name, the payload and the outcome. *)
Lemma transform_data_world api_name raw_data w :
  unified (fst (transform_data api_name raw_data w)) = unified w /\
  same_tables w (fst (transform_data api_name raw_data w)) /\
  (uuids_drawn w <= uuids_drawn (fst (transform_data api_name raw_data w)))%nat /\
  (forall e, snd (transform_data api_name raw_data w) = Raised e ->
             normaliser_error e).
Proof.
  destruct (recognized_dec api_name) as [Hr|Hr].
  - rewrite (transform_data_loop _ _ _ Hr).
    destruct (payload_items api_name raw_data) as [items|e0] eqn:P.
    + destruct (for_append_world api_name items w) as (Hu & Ht & Hn).
      repeat split; try assumption; try apply Ht.
      intros e. apply for_append_error.
    + simpl. repeat split; try apply same_tables_refl; try lia.
      intros e [= <-]. unfold payload_items in P.
      destruct (String.eqb api_name "users").
      * destruct (get_method raw_data "results" (VList [])) eqn:G.
        -- eapply py_iter_error; eauto.
        -- injection P as <-. eapply get_method_error; eauto.
      * eapply py_iter_error; eauto.
  - rewrite (transform_data_unrecognized _ _ _ Hr). simpl.
    repeat split; try apply same_tables_refl; try lia. discriminate.
Qed.

Lemma transform_data_ids api_name raw_data w w' recs :
  transform_data api_name raw_data w = (w', Ok recs) ->
  Forall (fun r => (uuids_drawn w <= entity_id r < uuids_drawn w')%nat) recs /\
  NoDup (map entity_id recs).
Proof.
  destruct (recognized_dec api_name) as [Hr|Hr].
  - rewrite (transform_data_loop _ _ _ Hr).
    destruct (payload_items api_name raw_data) as [items|e0]; [|discriminate].
    intros H. apply for_append_ids in H as (_ & _ & Hall & Hnd). auto.
  - rewrite (transform_data_unrecognized _ _ _ Hr). intros [= <- <-].
    split; constructor.
Qed.

Lemma update_or_create_world url payload fetched w :
  unified (fst (update_or_create url payload fetched w)) = unified w /\
  uuids_drawn (fst (update_or_create url payload fetched w)) = uuids_drawn w.
Proof.
  unfold update_or_create.
  destruct (filter _ _) as [|? [|? ?]]; simpl; auto.
Qed.

Lemma fetch_world api_name w :
  unified (fst (fetch_data_from_api api_name w)) = unified w /\
  uuids_drawn (fst (fetch_data_from_api api_name w)) = uuids_drawn w.
Proof.
  destruct (API_ENDPOINTS !! api_name) as [url|] eqn:E.
  - rewrite (fetch_unfold _ _ _ E).
    destruct (http_get (requests_sent w) url) as [r|code body]; [simpl; auto|].
    destruct ((400 <=? code) && (code <? 600)); [simpl; auto|].
    destruct body as [payload|]; [|simpl; auto].
    pose proof (update_or_create_world url payload (clock (clock_reads w))
                  (tick (sent w))) as H.
    destruct (update_or_create _ _ _ _) as [w' [[]|e]]; simpl in *; exact H.
  - unfold fetch_data_from_api. rewrite E. simpl. auto.
Qed.

Lemma store_world recs w :
  uuids_drawn (fst (store_transformed_data recs w)) = uuids_drawn w /\
  api_cache (fst (store_transformed_data recs w)) = api_cache w.
Proof.
  destruct (store_appends recs w) as (news & -> & _). simpl. auto.
Qed.







Lemma fetch_value api_name url w :
  cache_keyed (api_cache w) ->
  API_ENDPOINTS !! api_name = Some url ->
  snd (fetch_data_from_api api_name w)
    = Ok (reply_value (http_get (requests_sent w) url)) /\
  cache_keyed (api_cache (fst (fetch_data_from_api api_name w))) /\
  unified (fst (fetch_data_from_api api_name w)) = unified w.
Proof.
  intros Hk E.
  destruct (fetch_keyed api_name w Hk) as (v & Hv & Hk' & Hu).
  split; [|auto]. rewrite (fetch_unfold _ _ _ E). unfold reply_value.
  destruct (http_get (requests_sent w) url) as [r|code body]; [reflexivity|].
  destruct ((400 <=? code) && (code <? 600)); [reflexivity|].
  destruct body as [payload|]; [|reflexivity].
  destruct (update_or_create_keyed url payload (clock (clock_reads w))
              (tick (sent w)) Hk) as (w' & -> & _). reflexivity.
Qed.

Lemma transform_data_replay api_name raw_data w w' recs w2 :
  transform_data api_name raw_data w = (w', Ok recs) ->
  exists w2' recs2,
    transform_data api_name raw_data w2 = (w2', Ok recs2) /\
    Forall2 (fun a b => data a = data b) recs recs2.
Proof.
  destruct (recognized_dec api_name) as [Hr|Hr].
  - rewrite !(transform_data_loop _ _ _ Hr).
    destruct (payload_items api_name raw_data) as [items|e0]; [|discriminate].
    intros H. destruct (for_append_replay _ _ _ _ _ w2 H) as (w2' & recs2 & H2).
    exists w2', recs2. split; [exact H2|].
    eapply for_append_same_data; eauto.
  - rewrite !(transform_data_unrecognized _ _ _ Hr). intros [= <- <-].
    exists w2, []. split; [reflexivity|constructor].
Qed.

(** X10: running a source again when the network answers as before persists
    nothing new: the second run gives the same report and leaves the
    Unified Records exactly as the first run left them. *)
Theorem rerun_persists_nothing (api_name url : string) (w w1 : world)
    (m : string) :
  cache_keyed (api_cache w) ->
  API_ENDPOINTS !! api_name = Some url ->
  fetch_and_store_data api_name w = (w1, Ok m) ->
  http_get (requests_sent w1) url = http_get (requests_sent w) url ->
  exists w2,
    fetch_and_store_data api_name w1 = (w2, Ok m) /\
    unified w2 = unified w1.
Proof.
  intros Hk E Hrun Hreply.
  destruct (fetch_value api_name url w Hk E) as (Hv & Hka & Hua).
  unfold fetch_and_store_data, bind in Hrun.
  destruct (fetch_data_from_api api_name w) as [wa ra]. simpl in *. subst ra.
  set (v := reply_value (http_get (requests_sent w) url)) in *.
  assert (Hk1 : cache_keyed (api_cache w1) /\
                (truthy v = true ->
                 exists wb recs, transform_data api_name v wa = (wb, Ok recs) /\
                   store_transformed_data recs wb = (w1, Ok tt))).
  { destruct (truthy v); simpl in Hrun.
    - destruct (transform_data_world api_name v wa) as (_ & Ht & _).
      destruct (transform_data api_name v wa) as [wb [recs|e]] eqn:T;
        [|discriminate].
      destruct (store_world recs wb) as [_ Hc].
      destruct (store_transformed_data recs wb) as [wc [[]|e]] eqn:S;
        [|discriminate].
      injection Hrun as <- <-. simpl in *. split.
      + rewrite Hc. destruct Ht as [-> _]. exact Hka.
      + intros _. eauto.
    - injection Hrun as <- <-. split; [exact Hka|discriminate]. }
  destruct Hk1 as [Hk1 Hfirst].
  destruct (fetch_value api_name url w1 Hk1 E) as (Hv2 & _ & Hu2).
  rewrite Hreply in Hv2. fold v in Hv2.
  unfold fetch_and_store_data, bind.
  destruct (fetch_data_from_api api_name w1) as [wc rc]. simpl in *. subst rc.
  destruct (truthy v) eqn:T; simpl in *.
  - destruct (Hfirst eq_refl) as (wb & recs & Htr & Hst).
    rewrite Htr in Hrun. simpl in Hrun. rewrite Hst in Hrun.
    injection Hrun as <-.
    destruct (transform_data_replay _ _ _ _ _ wc Htr)
      as (wd & recs2 & Htr2 & Hdata).
    destruct (transform_data_world api_name v wc) as (Hud & _).
    rewrite Htr2 in *. simpl in Hud.
    assert (Hskip : store_transformed_data recs2 wd = (wd, Ok tt)).
    { apply store_all_skipped. intros b Hb.
      destruct (Forall2_partner _ _ _ Hdata b Hb) as (a & Ha & Hab).
      unfold ext_id_of in *. rewrite <- Hab, Hud, Hu2.
      apply (store_ok_covers recs wb w1 Hst a Ha). }
    rewrite Hskip. exists wd. split; [reflexivity|congruence].
  - injection Hrun as _ <-. exists wc. split; [reflexivity|exact Hu2].
Qed.







(** *** The admin action *)

Lemma report_differs api_name :
  "Failed to fetch data from " +:+ api_name
  <> "Processed data from " +:+ api_name.
Proof. simpl. discriminate. Qed.

Lemma admin_loop_step api_name rest n w :
  admin_loop (api_name :: rest) n w =
  match fetch_and_store_data api_name w with
  | (w1, Ok m) =>
      admin_loop rest
        (if decide (m = "Processed data from " +:+ api_name) then S n else n)
        w1
  | (w1, Raised e) => (w1, Raised e)
  end.
Proof.
  simpl. unfold fetch_and_store_data, bind.
  destruct (fetch_data_from_api api_name w) as [w1 [raw|e]]; [|reflexivity].
  destruct (truthy raw); simpl.
  - destruct (transform_data api_name raw w1) as [w2 [recs|e]]; [|reflexivity].
    destruct (store_transformed_data recs w2) as [w3 [[]|e]]; [|reflexivity].
    unfold ret. rewrite decide_True by reflexivity. reflexivity.
  - reflexivity.
Qed.

Lemma processed_count_results m1 m2 m3 :
  processed_count (results_of m1 m2 m3) =
  ((if decide (m1 = "Processed data from products") then 1 else 0) +
   ((if decide (m2 = "Processed data from users") then 1 else 0) +
    (if decide (m3 = "Processed data from transactions") then 1 else 0)))%nat.
Proof.
  unfold processed_count, results_of. rewrite !filter_cons, filter_nil.
  rewrite (lookup_insert_ne _ "transactions" "products") by done.
  rewrite (lookup_insert_ne _ "users" "products") by done.
  rewrite (lookup_insert_ne _ "transactions" "users") by done.
  rewrite !lookup_insert_eq. simpl String.append.
  destruct (decide (m1 = _)) as [->|H1]; destruct (decide (m2 = _)) as [->|H2];
    destruct (decide (m3 = _)) as [->|H3];
    repeat match goal with
           | |- context [decide (Some ?a = Some ?b)] =>
               destruct (decide (Some a = Some b)) as [?|?];
               try (exfalso; cbv [String.append] in *; congruence)
           end;
    reflexivity.
Qed.

Lemma admin_loop_is_run_all (w : world) :
  admin_loop ["products"; "users"; "transactions"] 0 w =
  match fetch_all_data w with
  | (w', Ok results) => (w', Ok (processed_count results))
  | (w', Raised e) => (w', Raised e)
  end.
Proof.
  unfold fetch_all_data. rewrite admin_loop_step. simpl fetch_all_loop.
  unfold bind at 1.
  destruct (fetch_and_store_data "products" w) as [w1 [m1|e]]; [|reflexivity].
  rewrite admin_loop_step. unfold bind at 1.
  destruct (fetch_and_store_data "users" w1) as [w2 [m2|e]]; [|reflexivity].
  rewrite admin_loop_step. unfold bind at 1.
  destruct (fetch_and_store_data "transactions" w2) as [w3 [m3|e]];
    [|reflexivity].
  change (<["transactions":=m3]> (<["users":=m2]> (<["products":=m1]> ∅)))
    with (results_of m1 m2 m3).
  unfold ret. rewrite processed_count_results. simpl admin_loop. unfold ret.
  destruct (decide (m1 = _)); destruct (decide (m2 = _));
    destruct (decide (m3 = _)); reflexivity.
Qed.

(** X12: the admin action does to the world exactly what [fetch_all_data]
    does, raises exactly when it raises, and the number in the message it
    flashes is the number of sources [fetch_all_data] reports as
    processed. *)
Theorem admin_action_is_run_all (w : world) :
  fetch_and_store_api_data w =
  match fetch_all_data w with
  | (w', Ok results) =>
      (w', Ok ("Successfully fetched & processed " +:+
               pretty (processed_count results) +:+ " APIs."))
  | (w', Raised e) => (w', Raised e)
  end.
Proof.
  unfold fetch_and_store_api_data, bind. rewrite admin_loop_is_run_all.
  destruct (fetch_all_data w) as [w' [results|e]]; reflexivity.
Qed.

(** *** The enrichment engine, seen from its callers *)

Lemma enriched_data_no_identity row :
  dict_get "external_id" (enriched_data row) = None.
Proof. destruct row as [[[t u] p] c]. reflexivity. Qed.

(** What the loop of the engine does in any world: it appends, and it stops
    at the first identifier that is already in use. *)
Lemma enrich_loop_any rows (n : nat) (w : world) :
  exists news,
    unified (fst (enrich_loop rows n w)) = unified w ++ news /\
    Forall enriched_record news /\
    same_tables w (fst (enrich_loop rows n w)) /\
    (uuids_drawn w <= uuids_drawn (fst (enrich_loop rows n w)))%nat /\
    match snd (enrich_loop rows n w) with
    | Ok n' =>
        n' = (n + length rows)%nat /\ map data news = map enriched_data rows
    | Raised e => e = IntegrityError /\ (length news < length rows)%nat
    end.
Proof.
  revert n w. induction rows as [|row rows IH]; intros n w.
  - exists []. simpl. rewrite app_nil_r, Nat.add_0_r.
    split; [reflexivity|]. split; [constructor|].
    split; [apply same_tables_refl|]. split; [lia|]. split; reflexivity.
  - simpl. unfold bind, uuid4, now, UnifiedEntity_create. simpl.
    destruct (existsb _ (unified w)).
    + exists []. simpl. rewrite app_nil_r.
      split; [reflexivity|]. split; [constructor|].
      split; [unfold same_tables; simpl; auto|]. split; [lia|].
      split; [reflexivity|lia].
    + set (new := {| entity_id := uuids_drawn w |}).
      set (w1 := set_unified _ _).
      destruct (IH (S n) w1) as (news & Hu & Hall & Ht & Hn & Hres).
      exists (new :: news). rewrite Hu. unfold w1 at 1. simpl.
      rewrite <- app_assoc. split; [reflexivity|]. split.
      { constructor; [|exact Hall].
        split; [reflexivity|]. split; [|reflexivity].
        apply enriched_data_no_identity. }
      split; [exact Ht|]. split.
      { assert (uuids_drawn w1 = S (uuids_drawn w)) by reflexivity. lia. }
      destruct (snd (enrich_loop rows (S n) w1)) as [n'|e].
      * destruct Hres as [-> Hd]. split; [lia|]. simpl. rewrite Hd.
        reflexivity.
      * destruct Hres as [-> Hl]. split; [reflexivity|simpl; lia].
Qed.

Lemma enrich_loop_fresh rows (n : nat) (w : world) :
  ids_fresh w ->
  snd (enrich_loop rows n w) = Ok (n + length rows)%nat /\
  ids_fresh (fst (enrich_loop rows n w)).
Proof.
  intros Hw. destruct (enrich_loop_spec rows n w Hw)
    as (w' & news & E & Hu & Hl & Hall).
  rewrite E. simpl. split; [reflexivity|].
  revert n w Hw w' news E Hu Hl Hall.
  induction rows as [|row rows IH]; intros n w Hw w' news E Hu Hl Hall.
  - simpl in E. injection E as <- _. exact Hw.
  - simpl in E. unfold bind, uuid4, now, UnifiedEntity_create in E.
    simpl in E.
    set (new := {| entity_id := uuids_drawn w |}) in E.
    assert (U : existsb (fun r => Nat.eqb (entity_id r) (uuids_drawn w))
                  (unified w) = false).
    { apply (entity_id_unused_iff new). intros r Hr. unfold ids_fresh in Hw.
      rewrite Forall_forall in Hw. apply Hw in Hr. simpl. lia. }
    rewrite U in E.
    set (w1 := set_unified _ _) in E.
    assert (Hw1 : ids_fresh w1).
    { unfold ids_fresh, w1. simpl. apply Forall_app. split.
      - eapply Forall_impl; [exact Hw|]. simpl. intros; lia.
      - constructor; [simpl; lia|constructor]. }
    destruct (enrich_loop_spec rows (S n) w1 Hw1)
      as (w2 & news2 & E2 & Hu2 & Hl2 & Hall2).
    rewrite E2 in E. injection E as <- _.
    eapply (IH (S n) w1 Hw1); eauto.
Qed.

Lemma filter_keep_then_drop (l news : list UnifiedEntity) :
  Forall enriched_record news ->
  filter (fun r => entity_type r <> "transaction")
    (filter (fun r => entity_type r <> "transaction") l ++ news)
  = filter (fun r => entity_type r <> "transaction") l.
Proof.
  intros Hall. rewrite filter_app.
  rewrite (filter_all (fun r => entity_type r <> "transaction"))
    by (apply Forall_forall; intros r Hr;
        apply list_elem_of_filter in Hr as [H _]; exact H).
  assert (E : filter (fun r : UnifiedEntity => entity_type r <> "transaction")
                news = []).
  { induction Hall as [|r news [Hr _] _ IH]; [reflexivity|].
    rewrite filter_cons_False by (intros H; apply H; exact Hr). exact IH. }
  rewrite E. apply app_nil_r.
Qed.

Lemma filter_transactions_new (l news : list UnifiedEntity) :
  Forall enriched_record news ->
  filter is_transaction_entity
    (filter (fun r => entity_type r <> "transaction") l ++ news) = news.
Proof.
  intros Hall. rewrite filter_app, filter_not_then_is. simpl.
  apply filter_all. eapply Forall_impl; [exact Hall|]. intros r [H _]. exact H.
Qed.

Lemma select_related_same_tables w w' :
  same_tables w w' -> select_related w' = select_related w.
Proof.
  intros (_ & Hu & Hc & Hp & Ht). unfold select_related, category_of.
  rewrite Hu, Hc, Hp, Ht. reflexivity.
Qed.

(** The engine as a whole, in any world. *)
Lemma enrich_transactions_any (w : world) :
  exists news,
    unified (fst (enrich_transactions w))
      = filter (fun r => entity_type r <> "transaction") (unified w) ++ news /\
    Forall enriched_record news /\
    same_tables w (fst (enrich_transactions w)) /\
    (uuids_drawn w <= uuids_drawn (fst (enrich_transactions w)))%nat /\
    match snd (enrich_transactions w) with
    | Ok n =>
        n = length (select_related w) /\
        map data news = map enriched_data (select_related w)
    | Raised e =>
        e = IntegrityError /\ (length news < length (select_related w))%nat
    end.
Proof.
  unfold enrich_transactions, bind, delete_transaction_entities.
  set (w0 := set_unified _ w).
  destruct (enrich_loop_any (select_related w0) 0 w0)
    as (news & Hu & Hall & Ht & Hn & Hres).
  exists news. split; [exact Hu|]. split; [exact Hall|].
  split; [exact Ht|]. split; [exact Hn|].
  change (select_related w0) with (select_related w) in *.
  destruct (enrich_loop (select_related w) 0 w0) as [w' [n|e]]; exact Hres.
Qed.

Lemma enrich_transactions_fresh (w : world) :
  ids_fresh w ->
  snd (enrich_transactions w) = Ok (length (select_related w)) /\
  ids_fresh (fst (enrich_transactions w)).
Proof.
  intros Hw. unfold enrich_transactions, bind, delete_transaction_entities.
  set (w0 := set_unified _ w).
  assert (Hw0 : ids_fresh w0).
  { unfold ids_fresh, w0. simpl. unfold ids_fresh in Hw.
    rewrite Forall_forall in *. intros x Hx.
    apply list_elem_of_filter in Hx as [_ Hx]. apply Hw, Hx. }
  destruct (enrich_loop_fresh (select_related w0) 0 w0 Hw0) as [Hs Hf].
  change (select_related w0) with (select_related w) in *.
  destruct (enrich_loop (select_related w) 0 w0) as [w' r]. simpl in *.
  subst r. auto.
Qed.

Lemma external_ids_enriched (news : list UnifiedEntity) :
  Forall enriched_record news -> external_ids news = [].
Proof.
  induction 1 as [|r news (_ & Hr & _) _ IH]; [reflexivity|].
  unfold external_ids in *. simpl. rewrite Hr. exact IH.
Qed.

Lemma external_ids_filter_NoDup (P : UnifiedEntity -> Prop)
    `{forall r, Decision (P r)} (l : list UnifiedEntity) :
  NoDup (external_ids l) -> NoDup (external_ids (filter P l)).
Proof.
  assert (Hsub : external_ids (filter P l) `sublist_of` external_ids l).
  { unfold external_ids. induction l as [|r l IH]; [constructor|].
    rewrite filter_cons.
    destruct (decide (P r)); cbn [omap list_omap];
      destruct (dict_get "external_id" (data r));
      first [apply sublist_skip; exact IH
            |apply sublist_cons; exact IH
            |exact IH]. }
  intros Hnd. exact (sublist_NoDup _ _ Hnd Hsub).
Qed.

(** X13: enrichment is a full replace, so doing it twice is doing it once:
    both runs return the same count, the transaction-typed records after the
    second run carry the same payloads, in the same order, as after the
    first, and the records of the other types are the ones there were. *)
Theorem enrich_twice_same_payloads (w : world) :
  ids_fresh w ->
  exists w1 w2 n,
    enrich_transactions w = (w1, Ok n) /\
    enrich_transactions w1 = (w2, Ok n) /\
    map data (filter is_transaction_entity (unified w2))
      = map data (filter is_transaction_entity (unified w1)) /\
    filter (fun r => entity_type r <> "transaction") (unified w2)
      = filter (fun r => entity_type r <> "transaction") (unified w).
Proof.
  intros Hw.
  destruct (enrich_transactions_fresh w Hw) as [Hs1 Hf1].
  destruct (enrich_transactions_any w) as (news1 & Hu1 & Hall1 & Ht1 & _ & Hr1).
  destruct (enrich_transactions w) as [w1 r1] eqn:E1. simpl in *. subst r1.
  destruct Hr1 as [_ Hd1].
  destruct (enrich_transactions_fresh w1 Hf1) as [Hs2 _].
  destruct (enrich_transactions_any w1) as (news2 & Hu2 & Hall2 & _ & _ & Hr2).
  destruct (enrich_transactions w1) as [w2 r2] eqn:E2. simpl in *. subst r2.
  destruct Hr2 as [_ Hd2].
  rewrite (select_related_same_tables _ _ Ht1) in *.
  exists w1, w2, (length (select_related w)).
  split; [reflexivity|]. split; [exact E2|].
  rewrite Hu2, Hu1, filter_keep_then_drop by exact Hall1.
  rewrite !filter_transactions_new by assumption.
  rewrite filter_keep_then_drop by exact Hall2.
  split; [congruence|reflexivity].
Qed.

(** The engine, from a world where the invariants hold. *)
Lemma enrich_inv (w : world) :
  pipeline_inv w ->
  pipeline_inv (fst (enrich_transactions w)) /\
  snd (enrich_transactions w) = Ok (length (select_related w)) /\
  external_ids (unified (fst (enrich_transactions w)))
    = external_ids
        (filter (fun r => entity_type r <> "transaction") (unified w)) /\
  (forall r, r ∈ unified (fst (enrich_transactions w)) ->
             is_transaction_entity r -> enriched_record r).
Proof.
  intros (Hf & He & Hk).
  destruct (enrich_transactions_fresh w Hf) as [Hs Hf1].
  destruct (enrich_transactions_any w) as (news & Hu & Hall & Ht & _ & _).
  assert (Hext : external_ids (unified (fst (enrich_transactions w)))
                 = external_ids
                     (filter (fun r => entity_type r <> "transaction")
                        (unified w))).
  { rewrite Hu, external_ids_app, (external_ids_enriched _ Hall).
    apply app_nil_r. }
  split; [|split; [exact Hs|split; [exact Hext|]]].
  - split; [exact Hf1|]. split.
    + unfold ext_unique. rewrite Hext.
      apply external_ids_filter_NoDup, He.
    + destruct Ht as [-> _]. exact Hk.
  - intros r Hr Htr. rewrite Hu in Hr. apply elem_of_app in Hr as [Hr|Hr].
    + apply list_elem_of_filter in Hr as [Hn _]. contradiction.
    + rewrite Forall_forall in Hall. apply Hall, Hr.
Qed.

(** X14: enrichment keeps the invariants of the pipeline and returns the
    number of joined rows; afterwards every transaction-typed record is one
    of its own, without an external identity and with the enrichment
    sentinel as source, so the identities the store knows are those of the
    records of the other types only. *)
Theorem enrich_keeps_invariants (w : world) :
  pipeline_inv w ->
  pipeline_inv (fst (enrich_transactions w)) /\
  snd (enrich_transactions w) = Ok (length (select_related w)) /\
  external_ids (unified (fst (enrich_transactions w)))
    = external_ids
        (filter (fun r => entity_type r <> "transaction") (unified w)) /\
  (forall r, r ∈ unified (fst (enrich_transactions w)) ->
             is_transaction_entity r -> enriched_record r).
Proof. exact (enrich_inv w). Qed.

(** X15: the enrichment view never raises.  It answers 200 with the count
    when every insert goes through, and 500 when an insert hits an
    identifier in use; in both cases the earlier transaction-typed records
    are already deleted, and after a 500 only some of the new ones were
    written: the replace is not atomic. *)
Theorem enrich_view_is_not_atomic (w : world) :
  exists w' news,
    unified w'
      = filter (fun r => entity_type r <> "transaction") (unified w) ++ news /\
    Forall enriched_record news /\
    ((EnrichTransactionsView_post w
      = (w', Ok (Status_200
                   ("Successfully enriched " +:+
                    pretty (length (select_related w)) +:+
                    " transaction records."))) /\
      length news = length (select_related w)) \/
     (EnrichTransactionsView_post w
      = (w', Ok (Status_500
                   "An error occurred during the transaction enrichment process.")) /\
      (length news < length (select_related w))%nat)).
Proof.
  destruct (enrich_transactions_any w) as (news & Hu & Hall & _ & _ & Hr).
  unfold EnrichTransactionsView_post, try_except, bind.
  destruct (enrich_transactions w) as [w' [n|e]]; simpl in *;
    exists w', news; (split; [exact Hu|]); (split; [exact Hall|]).
  - left. destruct Hr as [-> Hd]. split; [reflexivity|].
    rewrite <- (length_map data news), Hd. apply length_map.
  - right. destruct Hr as [_ Hl]. split; [reflexivity|exact Hl].
Qed.

(** X16: the store never adds a second carrier of an identity.  Once a
    record with some external identity is stored, every record that carries
    this identity after any later call was there before it: a record of the
    same or of another type with this identity, whatever its payload, is not
    added. *)
Theorem store_never_adds_carrier (recs : list UnifiedEntity) (w : world)
    (v : value) (r : UnifiedEntity) :
  v ∈ external_ids (unified w) ->
  r ∈ unified (fst (store_transformed_data recs w)) ->
  dict_get "external_id" (data r) = Some v ->
  r ∈ unified w.
Proof.
  intros Hv Hr Hd.
  destruct (store_appends recs w) as (news & Hw & _ & Hall).
  rewrite Hw in Hr. simpl in Hr. apply elem_of_app in Hr as [Hr|Hr];
    [exact Hr|].
  rewrite Forall_forall in Hall. destruct (Hall r Hr) as [_ Hn].
  exfalso. apply Hn. unfold ext_id_of. rewrite Hd. exact Hv.
Qed.

(** *** The data view *)

Lemma filter_type_of_kept (t : string) (l : list UnifiedEntity) :
  t <> "transaction" ->
  filter (fun r => entity_type r = t)
    (filter (fun r => entity_type r <> "transaction") l)
  = filter (fun r => entity_type r = t) l.
Proof.
  intros Ht. induction l as [|x l IH]; [reflexivity|].
  destruct (decide (entity_type x = "transaction")) as [Heq|Hne].
  - rewrite (filter_cons_False (fun r => entity_type r <> "transaction"))
      by (intros H; apply H; exact Heq).
    rewrite filter_cons_False by congruence. exact IH.
  - rewrite (filter_cons_True (fun r => entity_type r <> "transaction"))
      by exact Hne.
    rewrite !filter_cons. destruct (decide (entity_type x = t));
      rewrite IH; reflexivity.
Qed.

Lemma filter_type_of_enriched (t : string) (news : list UnifiedEntity) :
  t <> "transaction" -> Forall enriched_record news ->
  filter (fun r => entity_type r = t) news = [].
Proof.
  intros Ht. induction 1 as [|r news [Hr _] _ IH]; [reflexivity|].
  rewrite filter_cons_False by congruence. exact IH.
Qed.

(** X17: the data view serves the three listed types and nothing else.  For
    a listed type it answers 200 with all the stored records of that type
    and only those, in stored order; for any other argument it answers 400,
    also when records of that type are stored. *)
Theorem data_view_serves_listed_types (entity_type_arg : string) (w : world) :
  (entity_type_arg ∈ ["product"; "user"; "transaction"] ->
   exists rows,
     DataByTypeView_get entity_type_arg w = Status_200 rows /\
     rows `sublist_of` unified w /\
     forall r, r ∈ rows <-> r ∈ unified w /\ entity_type r = entity_type_arg) /\
  (entity_type_arg ∉ ["product"; "user"; "transaction"] ->
   DataByTypeView_get entity_type_arg w
   = Status_400
       "Invalid entity_type. Allowed types: 'product', 'user', 'transaction'.").
Proof.
  unfold DataByTypeView_get, UnifiedEntitySerializer. split; intros H.
  - rewrite bool_decide_eq_true_2 by exact H.
    eexists. split; [reflexivity|]. split; [apply sublist_filter|].
    intros r. rewrite list_elem_of_filter.
    split; intros [H1 H2]; split; assumption.
  - rewrite bool_decide_eq_false_2 by exact H. reflexivity.
Qed.

(** X18: after an enrichment in a consistent database, the data view serves
    under [transaction] one enriched record per [Transaction] row, and under
    [product] and [user] exactly what it served before. *)
Theorem data_view_after_enrich (w : world) :
  ids_fresh w ->
  relational_ok w ->
  (exists rows,
      DataByTypeView_get "transaction" (fst (enrich_transactions w))
        = Status_200 rows /\
      length rows = length (transactions w) /\
      Forall enriched_record rows /\
      map data rows = map enriched_data (select_related w)) /\
  DataByTypeView_get "product" (fst (enrich_transactions w))
    = DataByTypeView_get "product" w /\
  DataByTypeView_get "user" (fst (enrich_transactions w))
    = DataByTypeView_get "user" w.
Proof.
  intros Hf Hrel.
  destruct (enrich_transactions_fresh w Hf) as [Hs _].
  destruct (enrich_transactions_any w) as (news & Hu & Hall & _ & _ & Hr).
  rewrite Hs in Hr. destruct Hr as [_ Hd].
  unfold DataByTypeView_get, UnifiedEntitySerializer.
  rewrite !bool_decide_eq_true_2 by set_solver.
  rewrite Hu, !filter_app.
  rewrite (filter_type_of_kept "product"), (filter_type_of_kept "user")
    by (intros ?; discriminate).
  rewrite (filter_type_of_enriched "product" news),
    (filter_type_of_enriched "user" news)
    by (exact Hall || (intros ?; discriminate)).
  rewrite !app_nil_r. split; [|split; reflexivity].
  exists news. split; [|split; [|split; [exact Hall|exact Hd]]].
  - f_equal.
    change (fun r : UnifiedEntity => entity_type r = "transaction")
      with is_transaction_entity.
    rewrite <- filter_app. apply filter_transactions_new, Hall.
  - rewrite <- (length_map data news), Hd, length_map.
    apply select_related_length, Hrel.
Qed.

(** *** The insight queries, beyond the zero case *)

Lemma sql_sum_total (l : list decimal) : default 0 (sql_sum l) = total l.
Proof. destruct l; reflexivity. Qed.

Lemma total_map_add {A} (f g : A -> Z) (l : list A) :
  total (map (fun x => f x + g x) l) = total (map f l) + total (map g l).
Proof.
  unfold total. induction l as [|x l IH]; simpl; [reflexivity|].
  rewrite IH. lia.
Qed.

Lemma total_indicator (k : nat) (a : Z) (users : list UserProfile) :
  NoDup (map user_pk users) ->
  total (map (fun u => if decide (k = user_pk u) then a else 0) users)
  = if decide (k ∈ map user_pk users) then a else 0.
Proof.
  unfold total. induction users as [|u users IH]; intros Hnd.
  - destruct (decide (k ∈ map user_pk [])) as [H|_];
      [inversion H|reflexivity].
  - rewrite !map_cons in *. cbn [foldr].
    apply NoDup_cons in Hnd as [Hu Hnd]. rewrite (IH Hnd).
    destruct (decide (k = user_pk u)) as [->|Hne].
    + destruct (decide (user_pk u ∈ map user_pk users)); [contradiction|].
      destruct (decide (user_pk u ∈ user_pk u :: map user_pk users))
        as [_|Hout]; [lia|]. exfalso. apply Hout. left.
    + destruct (decide (k ∈ map user_pk users)) as [Hin|Hout];
        destruct (decide (k ∈ user_pk u :: map user_pk users)) as [Hin'|Hout'];
        try lia.
      * exfalso. apply Hout'. right. exact Hin.
      * exfalso. apply elem_of_cons in Hin' as [H|H]; contradiction.
Qed.

Lemma total_zeros {A} (l : list A) : total (map (fun _ => 0) l) = 0.
Proof. unfold total. induction l; simpl; [reflexivity|assumption]. Qed.

Lemma per_user_totals (users : list UserProfile) (txs : list Transaction) :
  NoDup (map user_pk users) ->
  (forall t, t ∈ txs -> transaction_user t ∈ map user_pk users) ->
  total (map (fun u =>
                total (map transaction_amount
                         (filter (fun t => transaction_user t = user_pk u)
                                 txs))) users)
  = total (map transaction_amount txs).
Proof.
  intros Hnd. induction txs as [|t txs IH]; intros Hfk.
  - apply total_zeros.
  - rewrite <- (map_ext
       (fun u => (if decide (transaction_user t = user_pk u)
                  then transaction_amount t else 0)
                 + total (map transaction_amount
                            (filter (fun t => transaction_user t = user_pk u)
                                    txs)))).
    + rewrite total_map_add.
      etransitivity;
        [apply f_equal2;
         [apply (total_indicator _ _ _ Hnd)
         |apply IH; intros t' Ht'; apply Hfk; right; exact Ht']|].
      rewrite decide_True by (apply Hfk; left). reflexivity.
    + intros u. rewrite filter_cons.
      destruct (decide (transaction_user t = user_pk u)); simpl;
        [reflexivity|]. unfold total. lia.
Qed.

(** X19: in a consistent database the per-user totals add up to the total
    of all transaction amounts, a null total counting as 0: no amount is
    lost and none is counted twice. *)
Theorem user_totals_add_up (w : world) :
  relational_ok w ->
  total (map spent (user_data w))
  = total (map transaction_amount (transactions w)).
Proof.
  intros (Hu & _ & Hfk). unfold user_data. rewrite map_map.
  rewrite <- (per_user_totals (user_profiles w) (transactions w) Hu).
  - f_equal. apply map_ext. intros u. unfold spent. simpl.
    apply sql_sum_total.
  - intros t Ht. destruct (Hfk t Ht) as [(u & Hin & Hpk) _].
    rewrite <- Hpk. apply list_elem_of_fmap. exists u. auto.
Qed.




(** *** The category counts *)

Lemma count_indicator {X K} `{EqDecision K} (kx : X -> K) (k : K) (a : nat)
    (xs : list X) :
  NoDup (map kx xs) -> k ∈ map kx xs ->
  sum_list_with (fun x => if decide (k = kx x) then a else 0%nat) xs = a.
Proof.
  induction xs as [|x xs IH]; intros Hnd Hin; [inversion Hin|].
  rewrite map_cons in *. apply NoDup_cons in Hnd as [Hx Hnd].
  cbn [sum_list_with]. destruct (decide (k = kx x)) as [->|Hne].
  - assert (E : sum_list_with
                  (fun y => if decide (kx x = kx y) then a else 0%nat) xs
                = 0%nat).
    { clear IH Hin Hnd. induction xs as [|y ys IHy]; [reflexivity|].
      rewrite map_cons in Hx. apply not_elem_of_cons in Hx as [Hxy Hx].
      cbn [sum_list_with]. rewrite decide_False by exact Hxy.
      rewrite (IHy Hx). reflexivity. }
    rewrite E. lia.
  - apply elem_of_cons in Hin as [Hin|Hin]; [contradiction|].
    rewrite (IH Hnd Hin). reflexivity.
Qed.

(** Grouping weighted rows by a key that each of them finds exactly once
    loses nothing and counts nothing twice. *)
Lemma grouped_sum {X Y K} `{EqDecision K} (kx : X -> K) (ky : Y -> K)
    (g : Y -> nat) (xs : list X) (ys : list Y) :
  NoDup (map kx xs) ->
  (forall y, y ∈ ys -> ky y ∈ map kx xs) ->
  sum_list_with
    (fun x => sum_list_with g (filter (fun y => ky y = kx x) ys)) xs
  = sum_list_with g ys.
Proof.
  intros Hnd. induction ys as [|y ys IH]; intros Hin.
  - clear Hnd Hin. induction xs as [|x xs IHx]; [reflexivity|].
    cbn [sum_list_with]. rewrite IHx. reflexivity.
  - assert (Hsplit :
      sum_list_with
        (fun x => sum_list_with g (filter (fun z => ky z = kx x) (y :: ys))) xs
      = (sum_list_with
           (fun x => if decide (ky y = kx x) then g y else 0%nat) xs
         + sum_list_with
             (fun x => sum_list_with g (filter (fun z => ky z = kx x) ys)) xs)%nat).
    { clear. induction xs as [|x xs IHx]; [reflexivity|].
      cbn [sum_list_with]. rewrite IHx, filter_cons.
      destruct (decide (ky y = kx x)); cbn [sum_list_with]; lia. }
    rewrite Hsplit.
    rewrite (count_indicator kx (ky y) (g y) xs Hnd
               (Hin y (list_elem_of_here _ _))).
    rewrite (IH (fun z Hz => Hin z (list_elem_of_further _ _ _ Hz))).
    reflexivity.
Qed.

Lemma length_flat_map_sum {A B} (f : A -> list B) (l : list A) :
  length (flat_map f l) = sum_list_with (fun x => length (f x)) l.
Proof.
  induction l as [|x l IH]; [reflexivity|].
  simpl. rewrite length_app, IH. reflexivity.
Qed.

Lemma sum_list_with_ones {A} (l : list A) :
  sum_list_with (fun _ => 1%nat) l = length l.
Proof. induction l as [|x l IH]; [reflexivity|]. simpl. rewrite IH. lia. Qed.

Lemma sum_list_with_ext_in {A} (f g : A -> nat) (l : list A) :
  (forall x, f x = g x) -> sum_list_with f l = sum_list_with g l.
Proof.
  intros H. induction l as [|x l IH]; [reflexivity|].
  simpl. rewrite H, IH. reflexivity.
Qed.

(** X22: when every transaction's product exists and every product has a
    category that exists, primary keys being unique, the per-category
    transaction counts add up to the number of transactions. *)
Theorem category_counts_add_up (w : world) :
  NoDup (map category_pk (categories w)) ->
  NoDup (map product_pk (products w)) ->
  (forall t, t ∈ transactions w ->
     exists p, p ∈ products w /\ product_pk p = transaction_product t) ->
  (forall p, p ∈ products w ->
     exists c, c ∈ categories w /\ product_category p = Some (category_pk c)) ->
  sum_list (map snd (category_data w)) = length (transactions w).
Proof.
  intros Hc Hp Hfk Hcat. unfold category_data. rewrite map_map. simpl.
  transitivity
    (sum_list_with
       (fun c =>
          sum_list_with
            (fun p => length (filter (fun t => transaction_product t = product_pk p)
                                (transactions w)))
            (filter (fun p => product_category p = Some (category_pk c))
               (products w)))
       (categories w)).
  { clear. induction (categories w) as [|c cs IH]; [reflexivity|].
    simpl. rewrite IH, length_flat_map_sum. reflexivity. }
  etransitivity.
  { apply (grouped_sum (fun c => Some (category_pk c)) product_category).
    - clear -Hc. induction (categories w) as [|c cs IH]; [constructor|].
      simpl in *. apply NoDup_cons in Hc as [Hn Hc]. constructor; [|auto].
      intros Hin. apply Hn. apply list_elem_of_fmap in Hin as (c' & E & Hin).
      injection E as E. rewrite E. apply list_elem_of_fmap. eauto.
    - intros p Hin. destruct (Hcat p Hin) as (c & Hcin & ->).
      apply list_elem_of_fmap. eauto. }
  etransitivity.
  { apply (sum_list_with_ext_in _
             (fun p => sum_list_with (fun _ => 1%nat)
                         (filter (fun t => transaction_product t = product_pk p)
                            (transactions w)))).
    intros p. symmetry. apply sum_list_with_ones. }
  etransitivity.
  { apply (grouped_sum product_pk transaction_product (fun _ => 1%nat));
      [exact Hp|].
    intros t Hin. destruct (Hfk t Hin) as (p & Hpin & <-).
    apply list_elem_of_fmap. eauto. }
  apply sum_list_with_ones.
Qed.
(** *** Ingestion and enrichment, seen from the read views *)

(** A run appends to the Unified Records, and only records of its own type,
    with new identifiers and identities the table did not hold. *)
Lemma run_appends api_name w :
  exists news,
    unified (fst (fetch_and_store_data api_name w)) = unified w ++ news /\
    Forall (fun r => entity_type r = entity_type_of api_name /\
                     truthy (ext_id_of r) = true /\
                     (ext_id_of r ∉ external_ids (unified w)) /\
                     (uuids_drawn w <= entity_id r)%nat) news.
Proof.
  destruct (fetch_world api_name w) as [Hu1 Hn1].
  unfold fetch_and_store_data, bind.
  destruct (fetch_data_from_api api_name w) as [w1 [v|e]]; simpl in *;
    [|exists []; rewrite app_nil_r; split; [exact Hu1|constructor]].
  destruct (truthy v); simpl;
    [|exists []; rewrite app_nil_r; split; [exact Hu1|constructor]].
  destruct (transform_data_world api_name v w1) as (Hu2 & _ & _ & _).
  assert (Hrecs : forall w2 recs,
             transform_data api_name v w1 = (w2, Ok recs) ->
             Forall (fun r => entity_type r = entity_type_of api_name /\
                              (uuids_drawn w1 <= entity_id r)%nat) recs).
  { intros w2 recs H.
    destruct (transform_data_ids _ _ _ _ _ H) as [Hall _].
    destruct (recognized_dec api_name) as [Hr|Hr].
    - rewrite (transform_data_loop _ _ _ Hr) in H.
      destruct (payload_items api_name v) as [items|e0]; [|discriminate].
      destruct (for_append_shape _ _ _ _ _ H) as [_ Hty].
      rewrite Forall_forall in *. intros r Hr'.
      split; [apply Hty, Hr'|apply Hall in Hr'; lia].
    - rewrite (transform_data_unrecognized _ _ _ Hr) in H.
      injection H as _ <-. constructor. }
  destruct (transform_data api_name v w1) as [w2 [recs|e]]; simpl in *;
    [|exists []; rewrite app_nil_r; split; [congruence|constructor]].
  specialize (Hrecs w2 recs eq_refl).
  destruct (store_appends recs w2) as (news & Hw & Hsub & Hall).
  exists news. split.
  - destruct (store_transformed_data recs w2) as [w3 [[]|e]]; simpl in *;
      subst w3; simpl; congruence.
  - rewrite Forall_forall in *. intros r Hr.
    destruct (Hall r Hr) as [Htr Hnew].
    destruct (Hrecs r (elem_of_sublist _ _ _ Hr Hsub)) as [Hty Hid].
    split; [exact Hty|]. split; [exact Htr|]. split; [congruence|lia].
Qed.



(** X23: a run only appends, and only records of its own type.  What the
    data view served before the run is, for every type, the beginning of
    what it serves after it, and for the types of the other sources it
    serves the same. *)
Theorem run_extends_own_type (api_name t : string) (w : world)
    (rows : list UnifiedEntity) :
  DataByTypeView_get t w = Status_200 rows ->
  exists more,
    DataByTypeView_get t (fst (fetch_and_store_data api_name w))
      = Status_200 (rows ++ more) /\
    Forall (fun r => r ∉ unified w) more /\
    (t <> entity_type_of api_name -> more = []).
Proof.
  unfold DataByTypeView_get, UnifiedEntitySerializer.
  destruct (bool_decide _); [|discriminate]. intros [= <-].
  destruct (run_appends api_name w) as (news & -> & Hall).
  exists (filter (fun r => entity_type r = t) news).
  rewrite filter_app. split; [reflexivity|]. split.
  - rewrite Forall_forall in *. intros r Hr.
    apply list_elem_of_filter in Hr as [_ Hr].
    destruct (Hall r Hr) as (_ & Htr & Hn & _). intros Hin. apply Hn.
    unfold external_ids, ext_id_of in *.
    destruct (dict_get "external_id" (data r)) as [v|] eqn:G;
      [|discriminate].
    apply list_elem_of_omap. exists r. auto.
  - intros Ht. induction Hall as [|r news (Hty & _) _ IH]; [reflexivity|].
    rewrite filter_cons_False by congruence. exact IH.
Qed.


(** *** What the pipeline leaves alone *)

Lemma relational_insights w w' :
  relational w' = relational w -> same_insights w w'.
Proof.
  unfold relational. intros [= Hu Hc Hp Ht].
  unfold same_insights, UserInsightsView_get, user_data,
    ProductInsightsView_get, category_data, avg_transaction.
  rewrite Hu, Hc, Hp, Ht. split; reflexivity.
Qed.

Lemma same_tables_relational w w' :
  same_tables w w' -> relational w' = relational w.
Proof. intros (_ & Hu & Hc & Hp & Ht). unfold relational. congruence. Qed.

Lemma fetch_relational api_name w :
  relational (fst (fetch_data_from_api api_name w)) = relational w.
Proof.
  destruct (API_ENDPOINTS !! api_name) as [url|] eqn:E.
  - rewrite (fetch_unfold _ _ _ E).
    destruct (http_get (requests_sent w) url) as [r|code body]; [reflexivity|].
    destruct ((400 <=? code) && (code <? 600)); [reflexivity|].
    destruct body as [payload|]; [|reflexivity].
    assert (H : relational (fst (update_or_create url payload
                                   (clock (clock_reads w)) (tick (sent w))))
                = relational w).
    { unfold update_or_create.
      destruct (filter _ _) as [|? [|? ?]]; reflexivity. }
    destruct (update_or_create _ _ _ _) as [w' [[]|e]]; exact H.
  - unfold fetch_data_from_api. rewrite E. reflexivity.
Qed.

Lemma run_relational api_name w :
  relational (fst (fetch_and_store_data api_name w)) = relational w.
Proof.
  pose proof (fetch_relational api_name w) as H1.
  unfold fetch_and_store_data, bind.
  destruct (fetch_data_from_api api_name w) as [w1 [v|e]]; simpl in *;
    [|exact H1].
  destruct (truthy v); simpl; [|exact H1].
  destruct (transform_data_world api_name v w1) as (_ & Ht & _).
  apply same_tables_relational in Ht.
  destruct (transform_data api_name v w1) as [w2 [recs|e]]; simpl in *;
    [|congruence].
  destruct (store_appends recs w2) as (news & Hw & _).
  destruct (store_transformed_data recs w2) as [w3 [[]|e]]; simpl in *;
    subst w3; rewrite <- H1, <- Ht; reflexivity.
Qed.

Lemma fetch_all_loop_relational api_names results w :
  relational (fst (fetch_all_loop api_names results w)) = relational w.
Proof.
  revert results w. induction api_names as [|api_name rest IH];
    intros results w; simpl; [reflexivity|].
  unfold bind. pose proof (run_relational api_name w) as H1.
  destruct (fetch_and_store_data api_name w) as [w1 [m|e]]; simpl in *;
    [|exact H1].
  rewrite IH. exact H1.
Qed.

Lemma enrich_relational w :
  relational (fst (enrich_transactions w)) = relational w.
Proof.
  destruct (enrich_transactions_any w) as (news & _ & _ & Ht & _).
  apply same_tables_relational, Ht.
Qed.

(** X25: the insight views read the relational tables, which neither the
    ingestion nor the enrichment writes: after a run, a run of all
    sources, the admin action, an enrichment or a call of the enrichment
    view, whatever their outcome, both insight views answer what they
    answered before. *)
Theorem insights_ignore_pipeline (api_name : string) (w : world) :
  same_insights w (fst (fetch_and_store_data api_name w)) /\
  same_insights w (fst (fetch_all_data w)) /\
  same_insights w (fst (fetch_and_store_api_data w)) /\
  same_insights w (fst (enrich_transactions w)) /\
  same_insights w (fst (EnrichTransactionsView_post w)).
Proof.
  pose proof (fetch_all_loop_relational
                ["products"; "users"; "transactions"] ∅ w) as Hall.
  fold fetch_all_data in Hall.
  pose proof (enrich_relational w) as Hen.
  split; [apply relational_insights, run_relational|].
  split; [apply relational_insights, Hall|].
  split; [|split; [apply relational_insights, Hen|]];
    apply relational_insights.
  - unfold fetch_and_store_api_data, bind. rewrite admin_loop_is_run_all.
    destruct (fetch_all_data w) as [w' [results|e]]; exact Hall.
  - unfold EnrichTransactionsView_post, try_except, bind.
    destruct (enrich_transactions w) as [w' [n|e]]; exact Hen.
Qed.

(** *** Requests *)

Lemma entry_for_requests api_name item w :
  requests_sent (fst (entry_for api_name item w)) = requests_sent w.
Proof.
  revert item w. apply entry_for_cases; intros item w; run_entry;
    split_results; reflexivity.
Qed.

Lemma for_append_requests api_name items w :
  requests_sent (fst (for_append (entry_for api_name) items [] w))
  = requests_sent w.
Proof.
  revert w. induction items as [|item rest IH]; intros w; [reflexivity|].
  rewrite for_append_cons.
  pose proof (entry_for_requests api_name item w) as H1.
  destruct (entry_for api_name item w) as [w1 [r|e]]; simpl in *; [|exact H1].
  pose proof (IH w1) as H2.
  destruct (for_append (entry_for api_name) rest [] w1) as [w2 [news|e]];
    simpl in *; congruence.
Qed.

Lemma transform_data_requests api_name raw_data w :
  requests_sent (fst (transform_data api_name raw_data w)) = requests_sent w.
Proof.
  destruct (recognized_dec api_name) as [Hr|Hr].
  - rewrite (transform_data_loop _ _ _ Hr).
    destruct (payload_items api_name raw_data) as [items|e0]; [|reflexivity].
    apply for_append_requests.
  - rewrite (transform_data_unrecognized _ _ _ Hr). reflexivity.
Qed.

Lemma fetch_requests api_name url w :
  API_ENDPOINTS !! api_name = Some url ->
  requests_sent (fst (fetch_data_from_api api_name w)) = S (requests_sent w).
Proof.
  intros E. rewrite (fetch_unfold _ _ _ E).
  destruct (http_get (requests_sent w) url) as [r|code body]; [reflexivity|].
  destruct ((400 <=? code) && (code <? 600)); [reflexivity|].
  destruct body as [payload|]; [|reflexivity].
  assert (H : requests_sent (fst (update_or_create url payload
                                    (clock (clock_reads w)) (tick (sent w))))
              = S (requests_sent w)).
  { unfold update_or_create.
    destruct (filter _ _) as [|? [|? ?]]; reflexivity. }
  destruct (update_or_create _ _ _ _) as [w' [[]|e]]; exact H.
Qed.

Lemma run_requests api_name url w :
  API_ENDPOINTS !! api_name = Some url ->
  requests_sent (fst (fetch_and_store_data api_name w)) = S (requests_sent w).
Proof.
  intros E. pose proof (fetch_requests api_name url w E) as H1.
  unfold fetch_and_store_data, bind.
  destruct (fetch_data_from_api api_name w) as [w1 [v|e]]; simpl in *;
    [|exact H1].
  destruct (truthy v); simpl; [|exact H1].
  pose proof (transform_data_requests api_name v w1) as H2.
  destruct (transform_data api_name v w1) as [w2 [recs|e]]; simpl in *;
    [|congruence].
  destruct (store_appends recs w2) as (news & Hw & _).
  destruct (store_transformed_data recs w2) as [w3 [[]|e]]; simpl in *;
    subst w3; simpl; congruence.
Qed.

(** X26: no reply is retried and no source is skipped.  A run of a
    configured source sends exactly one request, whatever the reply and
    whether the run returns or raises; [fetch_all_data] sends between one
    and three, and exactly three whenever it returns. *)
Theorem run_all_sends_three_requests (w : world) :
  (forall api_name, recognized api_name ->
     requests_sent (fst (fetch_and_store_data api_name w))
     = S (requests_sent w)) /\
  (requests_sent w < requests_sent (fst (fetch_all_data w))
   <= requests_sent w + 3)%nat /\
  (forall results, snd (fetch_all_data w) = Ok results ->
     requests_sent (fst (fetch_all_data w)) = (requests_sent w + 3)%nat).
Proof.
  split.
  { intros api_name [->|[->| ->]]; eapply run_requests; reflexivity. }
  unfold fetch_all_data. simpl. unfold bind.
  pose proof (run_requests "products" _ w eq_refl) as H1.
  destruct (fetch_and_store_data "products" w) as [w1 [m1|e]]; simpl in *;
    [|split; [lia|discriminate]].
  pose proof (run_requests "users" _ w1 eq_refl) as H2.
  destruct (fetch_and_store_data "users" w1) as [w2 [m2|e]]; simpl in *;
    [|split; [lia|discriminate]].
  pose proof (run_requests "transactions" _ w2 eq_refl) as H3.
  destruct (fetch_and_store_data "transactions" w2) as [w3 [m3|e]];
    simpl in *; split; try lia; discriminate.
Qed.

(** *** Enrichment between two runs *)




End Pipeline.

(** ** The scenarios of the specification, run on the samples *)

(** Scenario A: one Unified Record of type product with external identity 1
    and title Shirt. *)
Lemma scenario_A_normalized :
  snd (transform_data format_simple float_of_no_str frozen_clock
         "products" scenario_A empty_world) = Ok [shirt_record].
Proof. vm_compute. reflexivity. Qed.

(** Scenario C: storing the Scenario A output twice leaves one record. *)
Lemma scenario_C_one_record :
  unified (fst (store_transformed_data [shirt_record]
                  (fst (store_transformed_data [shirt_record] empty_world))))
  = [shirt_record].
Proof. vm_compute. reflexivity. Qed.

(** Scenario D: a user with two transactions of 10 and 20 has spent 30. *)
Lemma scenario_D_total :
  map total_spent (user_data shop_world) = [Some 3000].
Proof. vm_compute. reflexivity. Qed.

Lemma store_twice_is_store_once_witness :
  ext_unique (unified empty_world) /\
  store_transformed_data [shirt_record]
    (fst (store_transformed_data [shirt_record] empty_world))
  = store_transformed_data [shirt_record] empty_world.
Proof.
  split; [constructor|].
  apply (store_twice_is_store_once [shirt_record] empty_world). constructor.
Defined.

Lemma enrich_replaces_transactions_witness :
  ids_fresh shop_world /\ relational_ok shop_world /\
  exists (w' : world) (news : list UnifiedEntity),
    enrich_transactions frozen_clock shop_world = (w', Ok (length news)) /\
    length news = 2%nat /\
    stale_enriched ∉ unified w'.
Proof.
  assert (Hfresh : ids_fresh shop_world) by (repeat constructor).
  assert (Hrel : relational_ok shop_world).
  { split; [|split].
    - repeat constructor. intros H. inversion H.
    - repeat constructor. intros H. inversion H.
    - intros t Ht. split.
      + exists ada. split; [left|].
        repeat (apply elem_of_cons in Ht as [->|Ht]; [reflexivity|]).
        inversion Ht.
      + exists shirt. split; [left|].
        repeat (apply elem_of_cons in Ht as [->|Ht]; [reflexivity|]).
        inversion Ht. }
  split; [exact Hfresh|]. split; [exact Hrel|].
  destruct (enrich_replaces_transactions frozen_clock shop_world Hfresh Hrel)
    as (w' & news & E & _ & Hlen & _ & Hgone).
  exists w', news. split; [exact E|]. split; [exact Hlen|].
  apply (Hgone stale_enriched); [left|reflexivity].
Defined.

(** C3 (the code at the failing input): a user without transactions is
    reported with a null [total_spent], where the claim has 0; the product
    insights of the same world are zero. *)
Theorem user_insights_null_total :
  UserInsightsView_get lonely_world
    = HTTP_200_OK [{| ui_external_id := "6f1c"; ui_name := "Ada";
                      ui_email := "ada@example.org"; total_spent := None |}] /\
  map total_spent (user_data lonely_world) <> [Some 0] /\
  ProductInsightsView_get lonely_world
    = HTTP_200_OK {| product_categories := [];
                     average_transaction_value := 0%Q |}.
Proof. split; [reflexivity|]. split; [discriminate|reflexivity]. Qed.

Lemma missing_field_aborts_batch_witness :
  recognized "products" /\
  payload_items "products" one_bad_product
    = Ok [VDict [("id", VInt 1); ("title", VStr "Shirt");
                 ("price", VFloat (SFdiv prec emax (float_of_Z 999)
                                                   (float_of_Z 100)));
                 ("category", VStr "clothing"); ("description", VStr "");
                 ("image", VStr "http://x/y.png")];
          untitled_product] /\
  missing_field "products" untitled_product /\
  snd (transform_data format_simple float_of_no_str frozen_clock
         "products" one_bad_product empty_world) = Raised (KeyError "title").
Proof.
  assert (Hr : recognized "products") by (left; reflexivity).
  assert (Hm : missing_field "products" untitled_product).
  { exists ["title"]. split; [right; left|reflexivity]. }
  split; [exact Hr|]. split; [reflexivity|]. split; [exact Hm|].
  refine (proj2 (missing_field_aborts_batch format_simple float_of_no_str
                   frozen_clock "products" one_bad_product _ empty_world
                   Hr eq_refl _) _ untitled_product [] (KeyError "title")
            eq_refl _ eq_refl _).
  - exists untitled_product. split; [right; left|exact Hm].
  - constructor; [|constructor]. split; [reflexivity|discriminate].
  - discriminate.
Defined.

Lemma transaction_amount_is_id_times_ten_witness :
  py_iter scenario_B = Ok [scenario_B_item] /\
  Forall (well_formed_item float_of_no_str "transactions") [scenario_B_item] /\
  is_ok (snd (transform_data format_simple float_of_no_str frozen_clock
                "transactions" scenario_B empty_world)) = true /\
  exists r,
    snd (transform_data format_simple float_of_no_str frozen_clock
           "transactions" scenario_B empty_world) = Ok [r] /\
    dict_get "amount" (data r) = Some (VFloat (float_of_Z 50)).
Proof.
  assert (Hwf : Forall (well_formed_item float_of_no_str "transactions")
                  [scenario_B_item]).
  { constructor; [|constructor]. split; [reflexivity|]. intros _.
    exists (VInt 5), (float_of_Z 5). split; [reflexivity|].
    vm_compute. reflexivity. }
  split; [reflexivity|]. split; [exact Hwf|]. split.
  { exact (proj1 (transaction_amount_is_id_times_ten format_simple
                    float_of_no_str frozen_clock scenario_B
                    [scenario_B_item] empty_world eq_refl) Hwf). }
  destruct (transform_data format_simple float_of_no_str frozen_clock
              "transactions" scenario_B empty_world) as [w' res] eqn:E.
  pose proof (proj2 (transaction_amount_is_id_times_ten format_simple
                       float_of_no_str frozen_clock scenario_B
                       [scenario_B_item] empty_world eq_refl)) as H.
  rewrite E in H. revert H. vm_compute in E. injection E as <- <-.
  intros H. specialize (H _ _ eq_refl).
  inversion H as [|item r items recs (x & f & Hx & _ & _ & H5) _]. subst.
  eexists. split; [reflexivity|]. apply H5.
  vm_compute in Hx. congruence.
Defined.





Lemma store_skips_falsy_identity_witness :
  dict_get "external_id" (data zero_id_record) = Some (VInt 0) /\
  store_item zero_id_record shop_world = (shop_world, Ok tt).
Proof.
  split; [reflexivity|].
  apply (store_skips_falsy_identity zero_id_record shop_world (VInt 0));
    [reflexivity|left; reflexivity].
Defined.

Lemma run_and_run_all_witness :
  fetch_and_store_data format_simple float_of_no_str frozen_clock net_down
    "users" empty_world
  = (sent empty_world, Ok "Failed to fetch data from users") /\
  (exists w3,
      fetch_and_store_data format_simple float_of_no_str frozen_clock
        net_mixed "products" empty_world
      = (w3, Ok "Processed data from products") /\
      unified w3 = [shirt_record]) /\
  exists w3,
    fetch_all_data format_simple float_of_no_str frozen_clock net_mixed
      empty_world
    = (w3, Ok (results_of "Processed data from products"
                          "Failed to fetch data from users"
                          "Processed data from transactions")).
Proof.
  split; [|split].
  - apply (proj1 (run_and_run_all format_simple float_of_no_str frozen_clock
                    net_down empty_world) "users" (sent empty_world)
             (VList [])); vm_compute; reflexivity.
  - eexists. split.
    + eapply (proj1 (proj2 (run_and_run_all format_simple float_of_no_str
                              frozen_clock net_mixed empty_world)));
        vm_compute; reflexivity.
    + reflexivity.
  - eexists.
    eapply (proj2 (proj2 (run_and_run_all format_simple float_of_no_str
                            frozen_clock net_mixed empty_world)));
      vm_compute; reflexivity.
Defined.

(** The catalogue answers with an item that has no title: the run raises
    instead of reporting, and the other two sources are never fetched. *)
Lemma untitled_product_stops_run_all :
  fetch_data_from_api frozen_clock net_untitled "products" empty_world
    = (tick (sent (set_api_cache
                     [{| endpoint := "https://fakestoreapi.com/products";
                         response_data := VList [untitled_product];
                         fetched_at := "2025-03-10T09:28:00+00:00" |}]
                     empty_world)),
       Ok (VList [untitled_product])) /\
  truthy (VList [untitled_product]) = true /\
  snd (fetch_and_store_data format_simple float_of_no_str frozen_clock
         net_untitled "products" empty_world) = Raised (KeyError "title") /\
  snd (fetch_all_data format_simple float_of_no_str frozen_clock
         net_untitled empty_world) = Raised (KeyError "title") /\
  requests_sent (fst (fetch_all_data format_simple float_of_no_str
                        frozen_clock net_untitled empty_world)) = 1%nat.
Proof. repeat split; vm_compute; reflexivity. Qed.


(** ** The further properties, run on the samples *)

Lemma shop_world_inv : pipeline_inv shop_world.
Proof.
  split; [repeat constructor|]. split.
  - unfold ext_unique. vm_compute. apply NoDup_singleton.
  - intros url. simpl. lia.
Defined.

Lemma shop_world_relational : relational_ok shop_world.
Proof.
  split; [|split].
  - repeat constructor. intros H. inversion H.
  - repeat constructor. intros H. inversion H.
  - intros t Ht. split.
    + exists ada. split; [left|].
      repeat (apply elem_of_cons in Ht as [->|Ht]; [reflexivity|]).
      inversion Ht.
    + exists shirt. split; [left|].
      repeat (apply elem_of_cons in Ht as [->|Ht]; [reflexivity|]).
      inversion Ht.
Defined.


Lemma transform_data_one_record_per_item_witness :
  recognized "products" /\
  transform_data format_simple float_of_no_str frozen_clock "products"
    scenario_A empty_world
  = (tick (tick (draw empty_world)), Ok [shirt_record]) /\
  map entity_id [shirt_record] = [0%nat] /\
  Forall (fun r => entity_type r = "product") [shirt_record].
Proof.
  assert (Hr : recognized "products") by (left; reflexivity).
  assert (E : transform_data format_simple float_of_no_str frozen_clock
                "products" scenario_A empty_world
              = (tick (tick (draw empty_world)), Ok [shirt_record]))
    by (vm_compute; reflexivity).
  split; [exact Hr|]. split; [exact E|].
  destruct (transform_data_one_record_per_item format_simple float_of_no_str
              frozen_clock "products" scenario_A _ _ _ Hr E)
    as (items & Hitems & _ & Hids & Hty & _).
  injection Hitems as <-. split; [exact Hids|exact Hty].
Defined.

Lemma transform_data_edge_payloads_witness :
  "products" <> "users" /\
  transform_data format_simple float_of_no_str frozen_clock "products"
    (VList []) shop_world = (shop_world, Ok []) /\
  dict_get "results" [("info", VDict [])] = None /\
  transform_data format_simple float_of_no_str frozen_clock "users"
    (VDict [("info", VDict [])]) shop_world = (shop_world, Ok []) /\
  py_iter (VInt 7) = Raised TypeError /\
  transform_data format_simple float_of_no_str frozen_clock "transactions"
    (VInt 7) shop_world = (shop_world, Raised TypeError) /\
  ~ recognized "orders" /\
  transform_data format_simple float_of_no_str frozen_clock "orders"
    scenario_A shop_world = (shop_world, Ok []).
Proof.
  assert (Hne : "products" <> "users") by discriminate.
  assert (Hu : ~ recognized "orders") by (intros [H|[H|H]]; discriminate H).
  pose proof (transform_data_edge_payloads format_simple float_of_no_str
                frozen_clock "products" shop_world) as (H1 & _).
  pose proof (transform_data_edge_payloads format_simple float_of_no_str
                frozen_clock "transactions" shop_world)
    as (_ & H2 & _ & H4 & _).
  pose proof (transform_data_edge_payloads format_simple float_of_no_str
                frozen_clock "orders" shop_world) as (_ & _ & _ & _ & H5).
  split; [exact Hne|]. split; [exact (H1 Hne)|].
  split; [reflexivity|].
  split; [exact (H2 [("info", VDict [])] eq_refl)|].
  split; [reflexivity|].
  split; [exact (H4 (VInt 7) (or_intror eq_refl) eq_refl)|].
  split; [exact Hu|exact (H5 scenario_A Hu)].
Defined.


Lemma fetch_result_empty_or_truthy_witness :
  exists w1,
    fetch_data_from_api frozen_clock net_empty_object "users" empty_world
      = (w1, Ok (VList [])) /\
    map response_data (api_cache w1) = [VDict []] /\
    fetch_and_store_data format_simple float_of_no_str frozen_clock
      net_empty_object "users" empty_world
    = (w1, Ok "Failed to fetch data from users").
Proof.
  eexists. split; [vm_compute; reflexivity|]. split; [reflexivity|].
  destruct (fetch_result_empty_or_truthy format_simple float_of_no_str
              frozen_clock net_empty_object "users" empty_world _ (VList [])
              ltac:(vm_compute; reflexivity)) as [[_ H]|H];
    [exact H|discriminate H].
Defined.

Lemma run_unrecognized_source_witness :
  ~ recognized "orders" /\
  fetch_and_store_data format_simple float_of_no_str frozen_clock net_mixed
    "orders" shop_world
  = (shop_world, Ok "Failed to fetch data from orders").
Proof.
  assert (Hu : ~ recognized "orders") by (intros [H|[H|H]]; discriminate H).
  split; [exact Hu|].
  exact (run_unrecognized_source format_simple float_of_no_str frozen_clock
           net_mixed "orders" shop_world Hu).
Defined.



Lemma rerun_persists_nothing_witness :
  cache_keyed (api_cache empty_world) /\
  exists w1 w2,
    fetch_and_store_data format_simple float_of_no_str frozen_clock
      net_mixed "products" empty_world
    = (w1, Ok "Processed data from products") /\
    fetch_and_store_data format_simple float_of_no_str frozen_clock
      net_mixed "products" w1
    = (w2, Ok "Processed data from products") /\
    unified w2 = unified w1 /\ unified w1 = [shirt_record].
Proof.
  assert (Hk : cache_keyed (api_cache empty_world))
    by (intros url; simpl; lia).
  split; [exact Hk|].
  eexists.
  assert (E : API_ENDPOINTS !! "products"
              = Some "https://fakestoreapi.com/products")
    by (vm_compute; reflexivity).
  destruct (rerun_persists_nothing format_simple float_of_no_str frozen_clock
              net_mixed "products" _ empty_world _ _ Hk E
              ltac:(vm_compute; reflexivity) eq_refl) as (w2 & H2 & Hu).
  exists w2. split; [reflexivity|]. split; [exact H2|].
  split; [exact Hu|reflexivity].
Defined.


Lemma enrich_twice_same_payloads_witness :
  ids_fresh shop_world /\
  exists w1 w2,
    enrich_transactions frozen_clock shop_world = (w1, Ok 2%nat) /\
    enrich_transactions frozen_clock w1 = (w2, Ok 2%nat) /\
    map data (filter is_transaction_entity (unified w2))
      = map data (filter is_transaction_entity (unified w1)).
Proof.
  split; [exact (proj1 shop_world_inv)|].
  destruct (enrich_twice_same_payloads frozen_clock shop_world
              (proj1 shop_world_inv)) as (w1 & w2 & n & H1 & H2 & Hd & _).
  assert (Hn : n = 2%nat).
  { assert (E : snd (enrich_transactions frozen_clock shop_world) = Ok 2%nat)
      by (vm_compute; reflexivity).
    rewrite H1 in E. simpl in E. congruence. }
  subst n. exists w1, w2. auto.
Defined.

Lemma enrich_keeps_invariants_witness :
  pipeline_inv shop_world /\
  pipeline_inv (fst (enrich_transactions frozen_clock shop_world)) /\
  external_ids (unified (fst (enrich_transactions frozen_clock shop_world)))
    = [VInt 1].
Proof.
  split; [exact shop_world_inv|].
  destruct (enrich_keeps_invariants frozen_clock shop_world shop_world_inv)
    as (Hi & _ & He & _).
  split; [exact Hi|]. rewrite He. reflexivity.
Defined.

(** The 500 branch of the enrichment view: in [clash_world] the first insert
    hits the identifier of the stored product, nothing new is written and
    the stale enriched record is gone. *)
Lemma enrich_view_clash :
  EnrichTransactionsView_post frozen_clock clash_world
    = (draw (tick (set_unified
                     (filter (fun r => entity_type r <> "transaction")
                        (unified clash_world)) clash_world)),
       Ok (Status_500
             "An error occurred during the transaction enrichment process.")) /\
  map entity_type
    (unified (fst (EnrichTransactionsView_post frozen_clock clash_world)))
    = ["product"].
Proof. split; vm_compute; reflexivity. Qed.

Lemma store_never_adds_carrier_witness :
  VInt 1 ∈ external_ids (unified (set_unified [shirt_record] empty_world)) /\
  dict_get "external_id" (data order_one) = Some (VInt 1) /\
  order_one
  ∉ unified (fst (store_transformed_data [order_one]
                              (set_unified [shirt_record] empty_world))).
Proof.
  assert (Hv : VInt 1 ∈ external_ids
                 (unified (set_unified [shirt_record] empty_world)))
    by (vm_compute; left).
  split; [exact Hv|]. split; [reflexivity|].
  intros Hin.
  pose proof (store_never_adds_carrier [order_one]
                (set_unified [shirt_record] empty_world) (VInt 1) order_one
                Hv Hin eq_refl) as H.
  simpl in H. apply list_elem_of_singleton in H. discriminate H.
Defined.

Lemma data_view_serves_listed_types_witness :
  "product" ∈ ["product"; "user"; "transaction"] /\
  DataByTypeView_get "product"
    (set_unified [shirt_record; order_one; parcel_record] empty_world)
  = Status_200 [shirt_record] /\
  ("parcel" ∉ ["product"; "user"; "transaction"]) /\
  DataByTypeView_get "parcel"
    (set_unified [shirt_record; order_one; parcel_record] empty_world)
  = Status_400
      "Invalid entity_type. Allowed types: 'product', 'user', 'transaction'.".
Proof.
  assert (H1 : "product" ∈ ["product"; "user"; "transaction"]) by left.
  assert (H2 : "parcel" ∉ ["product"; "user"; "transaction"]).
  { intros H.
    repeat (apply elem_of_cons in H as [H|H]; [discriminate H|]).
    inversion H. }
  split; [exact H1|]. split.
  - destruct (proj1 (data_view_serves_listed_types "product"
                       (set_unified [shirt_record; order_one; parcel_record]
                          empty_world)) H1) as (rows & Hrows & _).
    rewrite Hrows. vm_compute in Hrows. injection Hrows as <-. reflexivity.
  - split; [exact H2|].
    exact (proj2 (data_view_serves_listed_types "parcel" _) H2).
Defined.

Lemma data_view_after_enrich_witness :
  ids_fresh shop_world /\ relational_ok shop_world /\
  exists rows,
    DataByTypeView_get "transaction"
      (fst (enrich_transactions frozen_clock shop_world)) = Status_200 rows /\
    length rows = 2%nat /\
    DataByTypeView_get "product"
      (fst (enrich_transactions frozen_clock shop_world))
    = DataByTypeView_get "product" shop_world.
Proof.
  split; [exact (proj1 shop_world_inv)|].
  split; [exact shop_world_relational|].
  destruct (data_view_after_enrich frozen_clock shop_world
              (proj1 shop_world_inv) shop_world_relational)
    as ((rows & Hrows & Hlen & _) & Hp & _).
  exists rows. split; [exact Hrows|]. split; [exact Hlen|exact Hp].
Defined.

Lemma user_totals_add_up_witness :
  relational_ok shop_world /\
  total (map spent (user_data shop_world)) = 3000.
Proof.
  split; [exact shop_world_relational|].
  rewrite (user_totals_add_up shop_world shop_world_relational). reflexivity.
Defined.


Lemma category_counts_add_up_witness :
  relational_ok shop_world /\
  NoDup (map category_pk (categories shop_world)) /\
  sum_list (map snd (category_data shop_world)) = 2%nat.
Proof.
  assert (Hc : NoDup (map category_pk (categories shop_world)))
    by (repeat constructor; intros H; inversion H).
  split; [exact shop_world_relational|]. split; [exact Hc|].
  destruct shop_world_relational as (_ & Hp & Hfk).
  rewrite (category_counts_add_up shop_world Hc Hp).
  - reflexivity.
  - intros t Ht. apply (Hfk t Ht).
  - intros p Hin. apply list_elem_of_singleton in Hin as ->.
    eexists. split; [left|reflexivity].
Defined.

Lemma run_extends_own_type_witness :
  DataByTypeView_get "transaction" shop_world = Status_200 [stale_enriched] /\
  DataByTypeView_get "transaction"
    (fst (fetch_and_store_data format_simple float_of_no_str frozen_clock
            net_mixed "products" shop_world))
  = Status_200 [stale_enriched].
Proof.
  split; [reflexivity|].
  destruct (run_extends_own_type format_simple float_of_no_str frozen_clock
              net_mixed "products" "transaction" shop_world [stale_enriched]
              eq_refl) as (more & H & _ & Hnone).
  rewrite H, Hnone; [reflexivity|discriminate].
Defined.


Lemma run_all_sends_three_requests_witness :
  recognized "users" /\
  requests_sent (fst (fetch_and_store_data format_simple float_of_no_str
                        frozen_clock net_mixed "users" empty_world)) = 1%nat /\
  requests_sent (fst (fetch_all_data format_simple float_of_no_str
                        frozen_clock net_mixed empty_world)) = 3%nat.
Proof.
  assert (Hr : recognized "users") by (right; left; reflexivity).
  pose proof (run_all_sends_three_requests format_simple float_of_no_str
                frozen_clock net_mixed empty_world) as (Hone & _ & Hthree).
  split; [exact Hr|]. split; [exact (Hone "users" Hr)|].
  assert (Hok : exists results,
             snd (fetch_all_data format_simple float_of_no_str frozen_clock
                    net_mixed empty_world) = Ok results)
    by (eexists; vm_compute; reflexivity).
  destruct Hok as (results & Hok). exact (Hthree results Hok).
Defined.

